(** * The ReAct step engine (llama_index/agent/v1/react.py)

    A shallow embedding of [ReActAgentStepEngine]: the construction of the
    engine, the resolution of tools, the extraction of a reasoning step from
    a model response, the processing of actions (blocking and suspending),
    the assembly of the response and the step runners.

    Python objects that are mutated in place and shared between steps (the
    two lists of the step state, and the conversational memory) live in an
    explicit heap and are named by references.  A raised exception is an
    error result that keeps the heap as it was when the exception was
    raised, so that what a failed step has already written stays visible.

    Not modelled: the callback manager's events and the verbose printing,
    which only observe the run. *)

From stdpp Require Import gmap strings list fin_maps.
From Stdlib Require Import ZArith.

Local Open Scope Z_scope.

(** ** Data of the collaborating modules *)

Inductive MessageRole := SYSTEM | USER | ASSISTANT | FUNCTION.

Module ChatMessage.
Record t := mk { content : option string; role : MessageRole }.
End ChatMessage.

Module ChatResponse.
Record t := mk { message : ChatMessage.t }.
End ChatResponse.

(** Keyword arguments of a tool call: a Python dict from argument name to
    value. *)
Abbreviation kwargs := (gmap string string).

(** Modelled from the spec: the reasoning step classes of
    llama_index.agent.react.types are not part of the sources; the spec has a
    tagged variant of an action (stated intent, tool name, structured input),
    an observation (the text of a tool result) and a terminal response. *)
Inductive BaseReasoningStep :=
| ActionReasoningStep (thought : string) (action : string) (action_input : kwargs)
| ObservationReasoningStep (observation : string)
| ResponseReasoningStep (response : string).

(** Modelled from the spec: the "is terminal" flag separates the response
    from the other steps. *)
Definition is_done (s : BaseReasoningStep) : bool :=
  match s with
  | ResponseReasoningStep _ => true
  | _ => false
  end.

(** Modelled from the spec: ToolOutput (llama_index.tools) is not part of the
    sources; it is an opaque result of one tool call that has a string
    rendering.  [raw_output] stands for the opaque part. *)
Module ToolOutput.
Record t := mk { content : string; raw_output : Z }.
Definition str (o : t) : string := content o.
End ToolOutput.

(** Modelled from the spec: a tool has a name, which is a string; the
    accessor [get_name] and the attribute [name] read the same field. *)
Module ToolMetadata.
Record t := mk { name : string; description : string }.
Definition get_name (m : t) : string := name m.
End ToolMetadata.

(** The exception a tool raises, carried as its message. *)
Definition ToolException := string.

Module BaseTool.
Record t := mk {
  metadata : ToolMetadata.t;
  call : kwargs -> ToolException + ToolOutput.t }.
End BaseTool.

Module AsyncBaseTool.
Record t := mk {
  metadata : ToolMetadata.t;
  call : kwargs -> ToolException + ToolOutput.t;
  acall : kwargs -> ToolException + ToolOutput.t }.
End AsyncBaseTool.

Module LLM.
Record t := mk {
  chat : list ChatMessage.t -> ChatResponse.t;
  achat : list ChatMessage.t -> ChatResponse.t }.
End LLM.

Module ReActChatFormatter.
Record t := mk {
  format : list AsyncBaseTool.t -> list ChatMessage.t ->
           list BaseReasoningStep -> list ChatMessage.t }.
End ReActChatFormatter.

Module ReActOutputParser.
(** [None] stands for any exception raised by the parser. *)
Record t := mk { parse : string -> bool -> option BaseReasoningStep }.
End ReActOutputParser.

Module ObjectRetriever.
Record t := mk { retrieve : string -> list BaseTool.t }.
End ObjectRetriever.

(** What the engine imports and the sources do not define: the adapter of a
    tool to the asynchronous interface, the rendering of a reasoning step,
    and the formatter and parser that the constructor falls back on. *)
Record Library := mkLibrary {
  adapt_to_async_tool : BaseTool.t -> AsyncBaseTool.t;
  get_content : BaseReasoningStep -> string;
  default_formatter : ReActChatFormatter.t;
  default_parser : ReActOutputParser.t }.

(** ** The heap of shared objects *)

Definition ref := positive.

Record Heap := mkHeap {
  reasoning_lists : gmap positive (list BaseReasoningStep);
  source_lists : gmap positive (list ToolOutput.t);
  memories : gmap positive (list ChatMessage.t) }.

(** A reference held by a live Python object always points to an object; a
    cell that was never written reads as the empty list. *)
Definition reasoning_at (h : Heap) (r : ref) : list BaseReasoningStep :=
  default [] (reasoning_lists h !! r).
Definition sources_at (h : Heap) (r : ref) : list ToolOutput.t :=
  default [] (source_lists h !! r).
Definition memory_at (h : Heap) (r : ref) : list ChatMessage.t :=
  default [] (memories h !! r).

(** Modelled from the spec: the step state is the pair of the two lists that
    every step of a task shares by reference. *)
Module StepState.
Record t := mk { sources : ref; current_reasoning : ref }.
End StepState.

(** Modelled from the spec: Task, TaskStep and TaskStepOutput of
    llama_index.agent.v1.schema are not part of the sources. *)
Module Task.
Record t := mk { task_id : string; input : string; memory : ref }.
End Task.

Module TaskStep.
Record t := mk {
  task_id : string;
  step_id : string;
  input : option string;
  memory : ref;
  step_state : StepState.t }.

(** Modelled from the spec: the follow-up step shares the memory and the
    step state of this one and has its own step id and input. *)
Definition get_next_step (step : t) (new_step_id : string)
    (new_input : option string) : t :=
  {| task_id := task_id step; step_id := new_step_id; input := new_input;
     memory := memory step; step_state := step_state step |}.
End TaskStep.

Module AgentChatResponse.
(** [sources] is the list object handed to the constructor, not a copy. *)
Record t := mk { response : string; sources : ref }.
End AgentChatResponse.

Module TaskStepOutput.
Record t := mk {
  output : AgentChatResponse.t;
  task_step : TaskStep.t;
  is_last : bool;
  next_steps : list TaskStep.t }.
End TaskStepOutput.

(** ** Exceptions

    The names are those of the design's taxonomy; each stands for the
    exception raised at one place of the code. *)
Inductive Error :=
| AmbiguousToolSource                       (* ValueError, __init__ *)
| EmptyModelOutput                          (* ValueError "Got empty message." *)
| ReasoningParseError (message_content : string)
| UnexpectedStepType (step : BaseReasoningStep)
| UnknownTool (tool_name : string)          (* KeyError of tools_dict[...] *)
| ToolExecutionError (exc : ToolException)  (* raised inside tool.call *)
| NoReasoningSteps
| MaxIterationsReached
| UnsupportedStreaming                      (* NotImplementedError *)
| PythonRuntimeError.                       (* IndexError or AttributeError; never raised *)

(** ** A monad of heap-passing computations that may raise *)

Definition M (A : Type) : Type := Heap -> (Error + A) * Heap.

Definition ret {A} (a : A) : M A := fun h => (inr a, h).
Definition raise {A} (e : Error) : M A := fun h => (inl e, h).
Definition bind {A B} (m : M A) (k : A -> M B) : M B :=
  fun h => match m h with
           | (inr a, h') => k a h'
           | (inl e, h') => (inl e, h')
           end.
Definition lift {A} (r : Error + A) : M A := fun h => (r, h).

Declare Scope engine_scope.
Delimit Scope engine_scope with engine.
Notation "'let*' x ':=' m 'in' k" := (bind m (fun x => k))
  (at level 10, x pattern, m at level 100, k at level 200) : engine_scope.
Notation "m ';;' k" := (bind m (fun _ => k))
  (at level 100, k at level 200, right associativity) : engine_scope.

(** Reading and writing the shared lists. *)
Definition read_reasoning (r : ref) : M (list BaseReasoningStep) :=
  fun h => (inr (reasoning_at h r), h).

(** list.extend *)
Definition extend_reasoning (r : ref) (steps : list BaseReasoningStep) : M unit :=
  fun h => (inr tt,
            {| reasoning_lists := <[r := reasoning_at h r ++ steps]> (reasoning_lists h);
               source_lists := source_lists h;
               memories := memories h |}).

(** list.append *)
Definition append_source (r : ref) (o : ToolOutput.t) : M unit :=
  fun h => (inr tt,
            {| reasoning_lists := reasoning_lists h;
               source_lists := <[r := sources_at h r ++ [o]]> (source_lists h);
               memories := memories h |}).

(** Modelled from the spec: the memory is a log; [get] reads the turns so
    far and [put] appends one turn. *)
Definition memory_get (r : ref) : M (list ChatMessage.t) :=
  fun h => (inr (memory_at h r), h).
Definition memory_put (r : ref) (msg : ChatMessage.t) : M unit :=
  fun h => (inr tt,
            {| reasoning_lists := reasoning_lists h;
               source_lists := source_lists h;
               memories := <[r := memory_at h r ++ [msg]]> (memories h) |}).

(** ** The engine *)

Module ReActAgentStepEngine.
Record t := mk {
  _llm : LLM.t;
  _max_iterations : Z;
  _react_chat_formatter : ReActChatFormatter.t;
  _output_parser : ReActOutputParser.t;
  _verbose : bool;
  _get_tools : string -> list BaseTool.t }.
End ReActAgentStepEngine.
Import ReActAgentStepEngine.

Section Engine.

Variable lib : Library.

Local Open Scope engine_scope.

(** ReActAgentStepEngine.__init__ *)
Definition __init__
    (tools : list BaseTool.t) (llm : LLM.t) (max_iterations : Z)
    (react_chat_formatter : option ReActChatFormatter.t)
    (output_parser : option ReActOutputParser.t)
    (verbose : bool)
    (tool_retriever : option ObjectRetriever.t)
  : Error + ReActAgentStepEngine.t :=
  let self get_tools :=
    {| _llm := llm;
       _max_iterations := max_iterations;
       _react_chat_formatter := default (default_formatter lib) react_chat_formatter;
       _output_parser := default (default_parser lib) output_parser;
       _verbose := verbose;
       _get_tools := get_tools |} in
  if bool_decide (0 < length tools)%nat && bool_decide (tool_retriever <> None) then
    inl AmbiguousToolSource
  else if bool_decide (0 < length tools)%nat then
    inr (self (fun _ => tools))
  else
    match tool_retriever with
    | Some tool_retriever_c =>
        inr (self (fun message => ObjectRetriever.retrieve tool_retriever_c message))
    | None => inr (self (fun _ => []))
    end.

(** ReActAgentStepEngine.from_tools, for a given model. *)
Definition from_tools
    (tools : option (list BaseTool.t))
    (tool_retriever : option ObjectRetriever.t)
    (llm : LLM.t) (max_iterations : Z)
    (react_chat_formatter : option ReActChatFormatter.t)
    (output_parser : option ReActOutputParser.t)
    (verbose : bool)
  : Error + ReActAgentStepEngine.t :=
  __init__ (default [] tools) llm max_iterations react_chat_formatter
           output_parser verbose tool_retriever.

(** initialize_step: two new empty lists, at references that nothing else
    holds, and a step over them.  [uuid4] is the identifier drawn for the
    step. *)
Definition initialize_step (task : Task.t) (uuid4 : string) : M TaskStep.t :=
  fun h =>
    let sources := fresh (dom (source_lists h)) in
    let current_reasoning := fresh (dom (reasoning_lists h)) in
    let step_state :=
      {| StepState.sources := sources;
         StepState.current_reasoning := current_reasoning |} in
    (inr {| TaskStep.task_id := Task.task_id task;
            TaskStep.step_id := uuid4;
            TaskStep.input := Some (Task.input task);
            TaskStep.memory := Task.memory task;
            TaskStep.step_state := step_state |},
     {| reasoning_lists := <[current_reasoning := []]> (reasoning_lists h);
        source_lists := <[sources := []]> (source_lists h);
        memories := memories h |}).

(** get_tools *)
Definition get_tools (self : ReActAgentStepEngine.t) (input : string)
  : list AsyncBaseTool.t :=
  map (adapt_to_async_tool lib) (_get_tools self input).

(** _extract_reasoning_step *)
Definition _extract_reasoning_step (self : ReActAgentStepEngine.t)
    (output : ChatResponse.t) (is_streaming : bool)
  : Error + (string * list BaseReasoningStep * bool) :=
  match ChatMessage.content (ChatResponse.message output) with
  | None => inl EmptyModelOutput
  | Some message_content =>
      let current_reasoning : list BaseReasoningStep := [] in
      match ReActOutputParser.parse (_output_parser self) message_content is_streaming with
      | None => inl (ReasoningParseError message_content)
      | Some reasoning_step =>
          let current_reasoning := current_reasoning ++ [reasoning_step] in
          if is_done reasoning_step then
            inr (message_content, current_reasoning, true)
          else
            match reasoning_step with
            | ActionReasoningStep _ _ _ =>
                inr (message_content, current_reasoning, false)
            | _ => inl (UnexpectedStepType reasoning_step)
            end
      end
  end.

(** The dict comprehensions of _process_actions and _aprocess_actions: a
    later tool replaces an earlier one of the same name. *)
Definition tools_dict_sync (tools : list AsyncBaseTool.t) : gmap string AsyncBaseTool.t :=
  foldl (fun d tool => <[ToolMetadata.get_name (AsyncBaseTool.metadata tool) := tool]> d)
        ∅ tools.

Definition tools_dict_async (tools : list AsyncBaseTool.t) : gmap string AsyncBaseTool.t :=
  foldl (fun d tool => <[ToolMetadata.name (AsyncBaseTool.metadata tool) := tool]> d)
        ∅ tools.

(** current_reasoning[-1], cast to an action step: the tool name and the
    tool input of the last step of the step-local list. *)
Definition last_action (current_reasoning : list BaseReasoningStep)
  : option (string * kwargs) :=
  match last current_reasoning with
  | Some (ActionReasoningStep _ action action_input) => Some (action, action_input)
  | _ => None
  end.

(** _process_actions *)
Definition _process_actions (self : ReActAgentStepEngine.t) (step : TaskStep.t)
    (tools : list AsyncBaseTool.t) (output : ChatResponse.t) (is_streaming : bool)
  : M (list BaseReasoningStep * bool) :=
  let tools_dict := tools_dict_sync tools in
  let* (_, current_reasoning, is_done) :=
    lift (_extract_reasoning_step self output is_streaming) in
  if is_done : bool then ret (current_reasoning, true)
  else
    (* call tool with input *)
    match last_action current_reasoning with
    | None => raise PythonRuntimeError
    | Some (action, action_input) =>
        match tools_dict !! action with
        | None => raise (UnknownTool action)
        | Some tool =>
            match AsyncBaseTool.call tool action_input with
            | inl exc => raise (ToolExecutionError exc)
            | inr tool_output =>
                append_source (StepState.sources (TaskStep.step_state step)) tool_output ;;
                let observation_step := ObservationReasoningStep (ToolOutput.str tool_output) in
                let current_reasoning := current_reasoning ++ [observation_step] in
                ret (current_reasoning, false)
            end
        end
    end.

(** _aprocess_actions *)
Definition _aprocess_actions (self : ReActAgentStepEngine.t) (step : TaskStep.t)
    (tools : list AsyncBaseTool.t) (output : ChatResponse.t) (is_streaming : bool)
  : M (list BaseReasoningStep * bool) :=
  let tools_dict := tools_dict_async tools in
  let* (_, current_reasoning, is_done) :=
    lift (_extract_reasoning_step self output is_streaming) in
  if is_done : bool then ret (current_reasoning, true)
  else
    (* call tool with input *)
    match last_action current_reasoning with
    | None => raise PythonRuntimeError
    | Some (action, action_input) =>
        match tools_dict !! action with
        | None => raise (UnknownTool action)
        | Some tool =>
            match AsyncBaseTool.acall tool action_input with
            | inl exc => raise (ToolExecutionError exc)
            | inr tool_output =>
                append_source (StepState.sources (TaskStep.step_state step)) tool_output ;;
                let observation_step := ObservationReasoningStep (ToolOutput.str tool_output) in
                let current_reasoning := current_reasoning ++ [observation_step] in
                ret (current_reasoning, false)
            end
        end
    end.

(** _get_response.  The two arguments are the list objects themselves. *)
Definition _get_response (self : ReActAgentStepEngine.t)
    (current_reasoning : ref) (sources : ref) : M AgentChatResponse.t :=
  let* steps := read_reasoning current_reasoning in
  if bool_decide (length steps = 0%nat) then raise NoReasoningSteps
  else if bool_decide (Z.of_nat (length steps) = _max_iterations self) then
    raise MaxIterationsReached
  else
    match last steps with
    | None => raise PythonRuntimeError
    | Some (ResponseReasoningStep response) =>
        ret {| AgentChatResponse.response := response;
               AgentChatResponse.sources := sources |}
    | Some last_step =>
        ret {| AgentChatResponse.response := get_content lib last_step;
               AgentChatResponse.sources := sources |}
    end.

(** _run_step.  [uuid4] is the identifier drawn for the follow-up step. *)
Definition _run_step (self : ReActAgentStepEngine.t) (step : TaskStep.t)
    (task : Task.t) (uuid4 : string) : M TaskStepOutput.t :=
  let tools := get_tools self (Task.input task) in
  let* chat_history := memory_get (TaskStep.memory step) in
  let* current_reasoning :=
    read_reasoning (StepState.current_reasoning (TaskStep.step_state step)) in
  let input_chat :=
    ReActChatFormatter.format (_react_chat_formatter self)
      tools chat_history current_reasoning in
  (* send prompt *)
  let chat_response := LLM.chat (_llm self) input_chat in
  (* given react prompt outputs, call tools or return response *)
  let* (reasoning_steps, is_done) :=
    _process_actions self step tools chat_response false in
  let step_state := TaskStep.step_state step in
  extend_reasoning (StepState.current_reasoning step_state) reasoning_steps ;;
  let* agent_response :=
    _get_response self (StepState.current_reasoning step_state)
                  (StepState.sources step_state) in
  let* new_steps :=
    if is_done : bool then
      memory_put (TaskStep.memory step)
        {| ChatMessage.content := Some (AgentChatResponse.response agent_response);
           ChatMessage.role := ASSISTANT |} ;;
      ret []
    else
      ret [TaskStep.get_next_step step uuid4 None] in
  ret {| TaskStepOutput.output := agent_response;
         TaskStepOutput.task_step := step;
         TaskStepOutput.is_last := is_done;
         TaskStepOutput.next_steps := new_steps |}.

(** _arun_step *)
Definition _arun_step (self : ReActAgentStepEngine.t) (step : TaskStep.t)
    (task : Task.t) (uuid4 : string) : M TaskStepOutput.t :=
  let tools := get_tools self (Task.input task) in
  let* chat_history := memory_get (TaskStep.memory step) in
  let* current_reasoning :=
    read_reasoning (StepState.current_reasoning (TaskStep.step_state step)) in
  let input_chat :=
    ReActChatFormatter.format (_react_chat_formatter self)
      tools chat_history current_reasoning in
  (* send prompt *)
  let chat_response := LLM.achat (_llm self) input_chat in
  (* given react prompt outputs, call tools or return response *)
  let* (reasoning_steps, is_done) :=
    _aprocess_actions self step tools chat_response false in
  let step_state := TaskStep.step_state step in
  extend_reasoning (StepState.current_reasoning step_state) reasoning_steps ;;
  let* agent_response :=
    _get_response self (StepState.current_reasoning step_state)
                  (StepState.sources step_state) in
  let* new_steps :=
    if is_done : bool then
      memory_put (TaskStep.memory step)
        {| ChatMessage.content := Some (AgentChatResponse.response agent_response);
           ChatMessage.role := ASSISTANT |} ;;
      ret []
    else
      ret [TaskStep.get_next_step step uuid4 None] in
  ret {| TaskStepOutput.output := agent_response;
         TaskStepOutput.task_step := step;
         TaskStepOutput.is_last := is_done;
         TaskStepOutput.next_steps := new_steps |}.

Definition run_step (self : ReActAgentStepEngine.t) (step : TaskStep.t)
    (task : Task.t) (uuid4 : string) : M TaskStepOutput.t :=
  _run_step self step task uuid4.

Definition arun_step (self : ReActAgentStepEngine.t) (step : TaskStep.t)
    (task : Task.t) (uuid4 : string) : M TaskStepOutput.t :=
  _arun_step self step task uuid4.

Definition stream_step (self : ReActAgentStepEngine.t) (step : TaskStep.t)
    (task : Task.t) : M TaskStepOutput.t :=
  raise UnsupportedStreaming.

Definition astream_step (self : ReActAgentStepEngine.t) (step : TaskStep.t)
    (task : Task.t) : M TaskStepOutput.t :=
  raise UnsupportedStreaming.

End Engine.

(** ** Vocabulary of the statements *)

Definition current_reasoning_of (step : TaskStep.t) : ref :=
  StepState.current_reasoning (TaskStep.step_state step).
Definition sources_of (step : TaskStep.t) : ref :=
  StepState.sources (TaskStep.step_state step).

(** The prompt that a step run sends to the model from the heap [h]. *)
Definition input_chat_of (lib : Library) (self : ReActAgentStepEngine.t)
    (step : TaskStep.t) (task : Task.t) (h : Heap) : list ChatMessage.t :=
  ReActChatFormatter.format (_react_chat_formatter self)
    (get_tools lib self (Task.input task))
    (memory_at h (TaskStep.memory step))
    (reasoning_at h (current_reasoning_of step)).

(** The model response has a text and the parser turns it into [s]. *)
Definition parses_to (self : ReActAgentStepEngine.t) (output : ChatResponse.t)
    (s : BaseReasoningStep) : Prop :=
  exists message_content,
    ChatMessage.content (ChatResponse.message output) = Some message_content /\
    ReActOutputParser.parse (_output_parser self) message_content false = Some s.

(** The names under which the resolved tools are registered. *)
Definition tool_names (tools : list AsyncBaseTool.t) : list string :=
  map (fun tool => ToolMetadata.name (AsyncBaseTool.metadata tool)) tools.

(** A step output without the identifiers of its follow-up steps. *)
Definition forget_step_ids (out : TaskStepOutput.t) : TaskStepOutput.t :=
  {| TaskStepOutput.output := TaskStepOutput.output out;
     TaskStepOutput.task_step := TaskStepOutput.task_step out;
     TaskStepOutput.is_last := TaskStepOutput.is_last out;
     TaskStepOutput.next_steps :=
       map (fun s => TaskStep.get_next_step s "" (TaskStep.input s))
           (TaskStepOutput.next_steps out) |}.

Definition forget_ids_of_result (r : Error + TaskStepOutput.t)
  : Error + TaskStepOutput.t :=
  match r with
  | inl e => inl e
  | inr out => inr (forget_step_ids out)
  end.

(** What _run_step and _arun_step do, in the same words, once the actions
    are processed: extend the shared trace, assemble the response, record
    the answer or propose the follow-up step. *)
Definition after_actions (lib : Library) (self : ReActAgentStepEngine.t)
    (step : TaskStep.t) (uuid4 : string)
    (processed : list BaseReasoningStep * bool) : M TaskStepOutput.t :=
  (let (reasoning_steps, is_done) := processed in
   let step_state := TaskStep.step_state step in
   extend_reasoning (StepState.current_reasoning step_state) reasoning_steps ;;
   let* agent_response :=
     _get_response lib self (StepState.current_reasoning step_state)
                   (StepState.sources step_state) in
   let* new_steps :=
     if is_done : bool then
       memory_put (TaskStep.memory step)
         {| ChatMessage.content := Some (AgentChatResponse.response agent_response);
            ChatMessage.role := ASSISTANT |} ;;
       ret []
     else
       ret [TaskStep.get_next_step step uuid4 None] in
   ret {| TaskStepOutput.output := agent_response;
          TaskStepOutput.task_step := step;
          TaskStepOutput.is_last := is_done;
          TaskStepOutput.next_steps := new_steps |})%engine.

(** The text that the response assembly takes from the last step. *)
Definition response_text (lib : Library) (last_step : BaseReasoningStep) : string :=
  match last_step with
  | ResponseReasoningStep response => response
  | _ => get_content lib last_step
  end.

(** The number of entries that a step run adds to the trace when the model
    output parses to [s]: the response alone, or the action and its
    observation. *)
Definition entries_added (s : BaseReasoningStep) : nat :=
  if is_done s then 1%nat else 2%nat.

(** The step [s] can be carried out with the tools at hand: it is a
    response, or an action whose tool is registered and returns. *)
Definition can_complete (tools : list AsyncBaseTool.t) (s : BaseReasoningStep) : Prop :=
  match s with
  | ResponseReasoningStep _ => True
  | ActionReasoningStep _ action action_input =>
      exists tool tool_output,
        tools_dict_sync tools !! action = Some tool /\
        AsyncBaseTool.call tool action_input = inr tool_output
  | ObservationReasoningStep _ => False
  end.

(** ** A concrete engine

    One tool, "search", which needs the argument "q"; a parser of three
    fixed texts; models that answer with a fixed text, or with an action
    first and an answer once the trace is not empty. *)

Definition demo_lib : Library :=
  {| adapt_to_async_tool t :=
       {| AsyncBaseTool.metadata := BaseTool.metadata t;
          AsyncBaseTool.call := BaseTool.call t;
          AsyncBaseTool.acall := BaseTool.call t |};
     get_content s :=
       match s with
       | ActionReasoningStep thought action _ =>
           "Thought: " +:+ thought +:+ " Action: " +:+ action
       | ObservationReasoningStep observation => "Observation: " +:+ observation
       | ResponseReasoningStep response => "Answer: " +:+ response
       end;
     default_formatter :=
       {| ReActChatFormatter.format _ chat_history current_reasoning :=
            chat_history ++
            map (fun _ => {| ChatMessage.content := Some "step";
                             ChatMessage.role := ASSISTANT |})
                current_reasoning |};
     default_parser :=
       {| ReActOutputParser.parse text _ :=
            if String.eqb text "search x" then
              Some (ActionReasoningStep "look it up" "search" {[ "q" := "x" ]})
            else if String.eqb text "search" then
              Some (ActionReasoningStep "look it up" "search" ∅)
            else if String.eqb text "nonexistent" then
              Some (ActionReasoningStep "try" "nonexistent" ∅)
            else if String.eqb text "" then None
            else Some (ResponseReasoningStep text) |} |}.

Definition says (text : string) : ChatResponse.t :=
  {| ChatResponse.message :=
       {| ChatMessage.content := Some text; ChatMessage.role := ASSISTANT |} |}.

Definition fixed_llm (text : string) : LLM.t :=
  {| LLM.chat _ := says text; LLM.achat _ := says text |}.

Definition two_phase_llm : LLM.t :=
  let answer (messages : list ChatMessage.t) :=
    says (if bool_decide (length messages = 0%nat) then "search x" else "42") in
  {| LLM.chat := answer; LLM.achat := answer |}.

Definition search_tool : BaseTool.t :=
  {| BaseTool.metadata :=
       {| ToolMetadata.name := "search"; ToolMetadata.description := "" |};
     BaseTool.call action_input :=
       match action_input !! "q" with
       | Some _ => inr {| ToolOutput.content := "result-y"; ToolOutput.raw_output := 0 |}
       | None => inl "missing argument q"
       end |}.

Definition demo_engine (llm : LLM.t) (max_iterations : Z) : ReActAgentStepEngine.t :=
  {| _llm := llm;
     _max_iterations := max_iterations;
     _react_chat_formatter := default_formatter demo_lib;
     _output_parser := default_parser demo_lib;
     _verbose := false;
     _get_tools _ := [search_tool] |}.

Definition empty_heap : Heap :=
  {| reasoning_lists := ∅; source_lists := ∅; memories := ∅ |}.

Definition demo_task : Task.t :=
  {| Task.task_id := "task"; Task.input := "question"; Task.memory := 1%positive |}.

Definition demo_step : TaskStep.t :=
  {| TaskStep.task_id := "task";
     TaskStep.step_id := "step-0";
     TaskStep.input := Some "question";
     TaskStep.memory := 1%positive;
     TaskStep.step_state :=
       {| StepState.sources := 1%positive;
          StepState.current_reasoning := 1%positive |} |}.

(** The engines of the examples. *)
Definition lost_engine : ReActAgentStepEngine.t :=
  demo_engine (fixed_llm "nonexistent") 10.
Definition careless_engine : ReActAgentStepEngine.t :=
  demo_engine (fixed_llm "search") 10.
Definition answering_engine : ReActAgentStepEngine.t :=
  demo_engine (fixed_llm "42") 10.
Definition answering_engine_cap_1 : ReActAgentStepEngine.t :=
  demo_engine (fixed_llm "42") 1.
Definition searching_engine_cap_2 : ReActAgentStepEngine.t :=
  demo_engine (fixed_llm "search x") 2.
Definition two_phase_engine : ReActAgentStepEngine.t :=
  demo_engine two_phase_llm 10.

Definition result_y : ToolOutput.t :=
  {| ToolOutput.content := "result-y"; ToolOutput.raw_output := 0 |}.

(** ** The streaming helper *)

(** [sub in s] of Python, for strings. *)
Definition python_in (sub s : string) : bool :=
  match String.index 0 sub s with
  | Some _ => true
  | None => false
  end.

(** _infer_stream_chunk_is_final.  A content that is None or the empty
    string is falsy. *)
Definition _infer_stream_chunk_is_final (self : ReActAgentStepEngine.t)
    (chunk : ChatResponse.t) : bool :=
  match ChatMessage.content (ChatResponse.message chunk) with
  | None => false
  | Some latest_content =>
      if negb (String.eqb latest_content "") then
        if negb (String.prefix "Thought" latest_content) then
          (* doesn't follow thought-action format *)
          true
        else if python_in "Answer: " latest_content then true
        else false
      else false
  end.

(** ** Vocabulary for the runs of a step in either form *)

Inductive Form := blocking | suspending.

Definition step_in (form : Form)
  : Library -> ReActAgentStepEngine.t -> TaskStep.t -> Task.t -> string ->
    M TaskStepOutput.t :=
  match form with
  | blocking => run_step
  | suspending => arun_step
  end.

(** The response of the model to the prompt of the step, in either form. *)
Definition model_response (form : Form) (lib : Library)
    (self : ReActAgentStepEngine.t) (step : TaskStep.t) (task : Task.t)
    (h : Heap) : ChatResponse.t :=
  match form with
  | blocking => LLM.chat (_llm self) (input_chat_of lib self step task h)
  | suspending => LLM.achat (_llm self) (input_chat_of lib self step task h)
  end.

(** The exceptions raised before a step run has written anything. *)
Definition raised_before_writing (e : Error) : bool :=
  match e with
  | EmptyModelOutput | ReasoningParseError _ | UnexpectedStepType _
  | UnknownTool _ | ToolExecutionError _ => true
  | _ => false
  end.

(** The heap that a computation leaves. *)
Definition exec {A} (m : M A) (h : Heap) : Heap := snd (m h).

(** The texts of the observations of a trace, in order. *)
Definition observations (steps : list BaseReasoningStep) : list string :=
  omap (fun s => match s with
                 | ObservationReasoningStep observation => Some observation
                 | _ => None
                 end) steps.

(** The output that a step run returns when the last step of the trace is
    [last_step]. *)
Definition output_of (lib : Library) (step : TaskStep.t) (uuid4 : string)
    (last_step : BaseReasoningStep) (is_done : bool) : TaskStepOutput.t :=
  {| TaskStepOutput.output :=
       {| AgentChatResponse.response := response_text lib last_step;
          AgentChatResponse.sources := sources_of step |};
     TaskStepOutput.task_step := step;
     TaskStepOutput.is_last := is_done;
     TaskStepOutput.next_steps :=
       if is_done then [] else [TaskStep.get_next_step step uuid4 None] |}.

Definition assistant_turn (text : string) : ChatMessage.t :=
  {| ChatMessage.content := Some text; ChatMessage.role := ASSISTANT |}.

(** The results that a run of a step can have from the heap [h]: the five
    ways through _process_actions and _run_step (or their suspending forms). *)
Inductive step_run (lib : Library) (self : ReActAgentStepEngine.t)
    (step : TaskStep.t) (uuid4 : string) (h : Heap)
  : (Error + TaskStepOutput.t) * Heap -> Prop :=
| step_run_refused e :
    raised_before_writing e = true ->
    step_run lib self step uuid4 h (inl e, h)
| step_run_response_capped response :
    Z.of_nat (length (reasoning_at h (current_reasoning_of step)) + 1)
    = _max_iterations self ->
    step_run lib self step uuid4 h
      (inl MaxIterationsReached,
       exec (extend_reasoning (current_reasoning_of step)
               [ResponseReasoningStep response]) h)
| step_run_response response :
    Z.of_nat (length (reasoning_at h (current_reasoning_of step)) + 1)
    <> _max_iterations self ->
    step_run lib self step uuid4 h
      (inr (output_of lib step uuid4 (ResponseReasoningStep response) true),
       exec (memory_put (TaskStep.memory step) (assistant_turn response))
         (exec (extend_reasoning (current_reasoning_of step)
                  [ResponseReasoningStep response]) h))
| step_run_action_capped thought action action_input tool_output :
    Z.of_nat (length (reasoning_at h (current_reasoning_of step)) + 2)
    = _max_iterations self ->
    step_run lib self step uuid4 h
      (inl MaxIterationsReached,
       exec (extend_reasoning (current_reasoning_of step)
               [ActionReasoningStep thought action action_input;
                ObservationReasoningStep (ToolOutput.str tool_output)])
         (exec (append_source (sources_of step) tool_output) h))
| step_run_action thought action action_input tool_output :
    Z.of_nat (length (reasoning_at h (current_reasoning_of step)) + 2)
    <> _max_iterations self ->
    step_run lib self step uuid4 h
      (inr (output_of lib step uuid4
              (ObservationReasoningStep (ToolOutput.str tool_output)) false),
       exec (extend_reasoning (current_reasoning_of step)
               [ActionReasoningStep thought action action_input;
                ObservationReasoningStep (ToolOutput.str tool_output)])
         (exec (append_source (sources_of step) tool_output) h)).

(** The table of tools and the call of a tool, in either form. *)
Definition tools_dict_in (form : Form)
  : list AsyncBaseTool.t -> gmap string AsyncBaseTool.t :=
  match form with
  | blocking => tools_dict_sync
  | suspending => tools_dict_async
  end.

Definition call_in (form : Form) (tool : AsyncBaseTool.t)
  : kwargs -> ToolException + ToolOutput.t :=
  match form with
  | blocking => AsyncBaseTool.call tool
  | suspending => AsyncBaseTool.acall tool
  end.

(** The heap after the runs of a sequence of steps, one after the other,
    each from the heap that the one before left, whether it returned or
    failed.  A run is given by its form, its step, its task and the
    identifier drawn in it. *)
Fixpoint heap_after_runs (lib : Library) (self : ReActAgentStepEngine.t)
    (runs : list (Form * TaskStep.t * Task.t * string)) (h : Heap) : Heap :=
  match runs with
  | [] => h
  | (form, step, task, uuid4) :: runs =>
      heap_after_runs lib self runs (snd (step_in form lib self step task uuid4 h))
  end.

(** The traces and the sources that go together: nothing; or what goes
    together, followed by an action and the observation of a tool output in
    the trace and by that tool output in the sources; or what goes together,
    followed by a response in the trace. *)
Inductive task_lists : list BaseReasoningStep -> list ToolOutput.t -> Prop :=
| task_lists_empty : task_lists [] []
| task_lists_action trace sources thought action action_input tool_output :
    task_lists trace sources ->
    task_lists
      (trace ++ [ActionReasoningStep thought action action_input;
                 ObservationReasoningStep (ToolOutput.str tool_output)])
      (sources ++ [tool_output])
| task_lists_response trace sources response :
    task_lists trace sources ->
    task_lists (trace ++ [ResponseReasoningStep response]) sources.

(** ** Lemmas on the heap and on the tool table *)

Lemma reasoning_at_extend r steps h :
  reasoning_at (snd (extend_reasoning r steps h)) r = reasoning_at h r ++ steps.
Proof. unfold reasoning_at at 1. simpl. by rewrite lookup_insert_eq. Qed.

Lemma reasoning_at_extend_ne r r' steps h :
  r <> r' ->
  reasoning_at (snd (extend_reasoning r steps h)) r' = reasoning_at h r'.
Proof. intros Hne. unfold reasoning_at. simpl. by rewrite lookup_insert_ne. Qed.

Lemma tools_dict_sync_async tools : tools_dict_sync tools = tools_dict_async tools.
Proof. reflexivity. Qed.

Lemma foldl_insert_lookup_None (tools : list AsyncBaseTool.t)
    (d : gmap string AsyncBaseTool.t) (a : string) :
  foldl (fun d tool => <[ToolMetadata.name (AsyncBaseTool.metadata tool) := tool]> d)
        d tools !! a = None
  <-> d !! a = None /\ a ∉ tool_names tools.
Proof.
  revert d. induction tools as [|t tools IH]; intros d; simpl.
  - split; [intros ->; split; [done | apply not_elem_of_nil] | by intros [? _]].
  - rewrite IH, not_elem_of_cons. split.
    + intros [Hins Hnot].
      apply lookup_insert_None in Hins as [Hd Hne]. by repeat split.
    + intros (Hd & Hne & Hnot). split; [|done].
      apply lookup_insert_None. by split.
Qed.

Lemma tools_dict_lookup_None tools a :
  tools_dict_sync tools !! a = None <-> a ∉ tool_names tools.
Proof.
  unfold tools_dict_sync, ToolMetadata.get_name.
  rewrite foldl_insert_lookup_None, lookup_empty. tauto.
Qed.

Lemma foldl_insert_lookup_Some (tools : list AsyncBaseTool.t)
    (d : gmap string AsyncBaseTool.t) (a : string) (tool : AsyncBaseTool.t) :
  foldl (fun d tool => <[ToolMetadata.name (AsyncBaseTool.metadata tool) := tool]> d)
        d tools !! a = Some tool ->
  d !! a = Some tool \/
  (tool ∈ tools /\ ToolMetadata.name (AsyncBaseTool.metadata tool) = a).
Proof.
  revert d. induction tools as [|t tools IH]; intros d; simpl; [by left|].
  intros H. apply IH in H as [H | [Hin Hn]].
  - apply lookup_insert_Some in H as [[<- <-] | [_ H]]; [right | by left].
    split; [apply list_elem_of_here | done].
  - right. split; [by apply list_elem_of_further | done].
Qed.

(** The tool that a name resolves to is one of the resolved tools and has
    that name. *)
Lemma tools_dict_lookup_Some tools a tool :
  tools_dict_sync tools !! a = Some tool ->
  tool ∈ tools /\ ToolMetadata.name (AsyncBaseTool.metadata tool) = a.
Proof.
  unfold tools_dict_sync, ToolMetadata.get_name. intros H.
  apply foldl_insert_lookup_Some in H as [H | H]; [|done].
  by rewrite lookup_empty in H.
Qed.

(** ** The processing of actions, case by case *)

Section ProcessActions.

Variable self : ReActAgentStepEngine.t.
Variables (step : TaskStep.t) (tools : list AsyncBaseTool.t).
Variable output : ChatResponse.t.

Ltac parsed H :=
  destruct H as (message_content & Hcontent & Hparse);
  unfold _process_actions, _aprocess_actions, bind, lift, _extract_reasoning_step;
  rewrite Hcontent, Hparse; simpl.

Lemma process_actions_response response h :
  parses_to self output (ResponseReasoningStep response) ->
  _process_actions self step tools output false h
  = (inr ([ResponseReasoningStep response], true), h).
Proof. intros H. by parsed H. Qed.

Lemma process_actions_unknown_tool thought action action_input h :
  parses_to self output (ActionReasoningStep thought action action_input) ->
  tools_dict_sync tools !! action = None ->
  _process_actions self step tools output false h = (inl (UnknownTool action), h).
Proof. intros H Hlookup. parsed H. by rewrite Hlookup. Qed.

Lemma process_actions_tool_raises thought action action_input tool exc h :
  parses_to self output (ActionReasoningStep thought action action_input) ->
  tools_dict_sync tools !! action = Some tool ->
  AsyncBaseTool.call tool action_input = inl exc ->
  _process_actions self step tools output false h = (inl (ToolExecutionError exc), h).
Proof. intros H Hlookup Hcall. parsed H. by rewrite Hlookup, Hcall. Qed.

Lemma process_actions_tool_returns thought action action_input tool tool_output h :
  parses_to self output (ActionReasoningStep thought action action_input) ->
  tools_dict_sync tools !! action = Some tool ->
  AsyncBaseTool.call tool action_input = inr tool_output ->
  _process_actions self step tools output false h
  = (inr ([ActionReasoningStep thought action action_input;
           ObservationReasoningStep (ToolOutput.str tool_output)], false),
     snd (append_source (sources_of step) tool_output h)).
Proof. intros H Hlookup Hcall. parsed H. by rewrite Hlookup, Hcall. Qed.

(** Whatever the model answered, a successful processing returns at least
    one reasoning step, and it writes nothing to the reasoning lists. *)
Lemma process_actions_success reasoning_steps is_done h h' :
  _process_actions self step tools output false h
  = (inr (reasoning_steps, is_done), h') ->
  reasoning_steps <> [] /\ reasoning_lists h' = reasoning_lists h
  /\ memories h' = memories h.
Proof.
  unfold _process_actions, bind, lift, _extract_reasoning_step.
  destruct (ChatMessage.content (ChatResponse.message output)) as [c|]; [|done].
  destruct (ReActOutputParser.parse (_output_parser self) c false) as [s|]; [|done].
  destruct s as [thought action action_input | observation | response]; simpl;
    [| done | intros [= <- <- <-]; by repeat split].
  destruct (tools_dict_sync tools !! action) as [tool|]; [|done].
  destruct (AsyncBaseTool.call tool action_input) as [exc|tool_output]; [done|].
  unfold append_source, ret; simpl. intros [= <- <- <-]. by repeat split.
Qed.

(** After a step that is not done, the last step of the local list is the
    action: the index and attribute accesses of the code cannot fail. *)
Lemma process_actions_no_runtime_error h :
  fst (_process_actions self step tools output false h) <> inl PythonRuntimeError.
Proof.
  unfold _process_actions, bind, lift, _extract_reasoning_step.
  destruct (ChatMessage.content (ChatResponse.message output)) as [c|]; [|done].
  destruct (ReActOutputParser.parse (_output_parser self) c false) as [s|]; [|done].
  destruct s as [thought action action_input | observation | response]; simpl;
    [| done | done].
  destruct (tools_dict_sync tools !! action) as [tool|]; [|done].
  by destruct (AsyncBaseTool.call tool action_input).
Qed.

(** The two forms of the processing of actions agree when the tools answer
    the suspending call as they answer the blocking one. *)
Lemma process_actions_aprocess_actions h :
  (forall tool action_input,
      tool ∈ tools ->
      AsyncBaseTool.call tool action_input = AsyncBaseTool.acall tool action_input) ->
  _process_actions self step tools output false h
  = _aprocess_actions self step tools output false h.
Proof.
  intros Hcalls.
  unfold _process_actions, _aprocess_actions, bind, lift.
  change (tools_dict_async tools) with (tools_dict_sync tools).
  destruct (_extract_reasoning_step self output false) as [e|[[c steps] [|]]]; try done.
  destruct (last_action steps) as [[action action_input]|]; [|done].
  destruct (tools_dict_sync tools !! action) as [tool|] eqn:Hlookup; [|done].
  apply tools_dict_lookup_Some in Hlookup as [Hin _].
  by rewrite (Hcalls tool action_input Hin).
Qed.

End ProcessActions.

(** ** The response assembly *)

Section GetResponse.

Variable lib : Library.
Variable self : ReActAgentStepEngine.t.

Lemma get_response_heap current_reasoning sources h :
  snd (_get_response lib self current_reasoning sources h) = h.
Proof.
  unfold _get_response, bind, read_reasoning, raise, ret.
  repeat case_bool_decide; try done.
  by destruct (last (reasoning_at h current_reasoning)) as [[| |]|].
Qed.

Lemma get_response_no_runtime_error current_reasoning sources h :
  fst (_get_response lib self current_reasoning sources h) <> inl PythonRuntimeError.
Proof.
  unfold _get_response, bind, read_reasoning, raise, ret.
  case_bool_decide as Hlen; [done|].
  case_bool_decide; [done|].
  destruct (last (reasoning_at h current_reasoning)) as [[| |]|] eqn:Hlast; try done.
  apply last_None in Hlast. by rewrite Hlast in Hlen.
Qed.

Lemma get_response_assembled current_reasoning sources h :
  reasoning_at h current_reasoning <> [] ->
  Z.of_nat (length (reasoning_at h current_reasoning)) <> _max_iterations self ->
  exists last_step,
    last (reasoning_at h current_reasoning) = Some last_step /\
    _get_response lib self current_reasoning sources h
    = (inr {| AgentChatResponse.response := response_text lib last_step;
              AgentChatResponse.sources := sources |}, h).
Proof.
  intros Hne Hmax.
  unfold _get_response, bind, read_reasoning, raise, ret.
  rewrite bool_decide_eq_false_2 by (by rewrite length_zero_iff_nil).
  rewrite bool_decide_eq_false_2 by done.
  destruct (last (reasoning_at h current_reasoning)) as [last_step|] eqn:Hlast.
  - exists last_step. split; [done|]. by destruct last_step.
  - by apply last_None in Hlast.
Qed.

Lemma get_response_at_cap current_reasoning sources h :
  reasoning_at h current_reasoning <> [] ->
  Z.of_nat (length (reasoning_at h current_reasoning)) = _max_iterations self ->
  _get_response lib self current_reasoning sources h = (inl MaxIterationsReached, h).
Proof.
  intros Hne Hmax.
  unfold _get_response, bind, read_reasoning, raise.
  rewrite bool_decide_eq_false_2 by (by rewrite length_zero_iff_nil).
  by rewrite bool_decide_eq_true_2.
Qed.

End GetResponse.

(** ** The step runners *)

Section RunStep.

Variable lib : Library.
Variable self : ReActAgentStepEngine.t.
Variables (step : TaskStep.t) (task : Task.t).

Lemma run_step_eq uuid4 h :
  run_step lib self step task uuid4 h
  = bind (_process_actions self step (get_tools lib self (Task.input task))
            (LLM.chat (_llm self) (input_chat_of lib self step task h)) false)
         (after_actions lib self step uuid4) h.
Proof. reflexivity. Qed.

Lemma arun_step_eq uuid4 h :
  arun_step lib self step task uuid4 h
  = bind (_aprocess_actions self step (get_tools lib self (Task.input task))
            (LLM.achat (_llm self) (input_chat_of lib self step task h)) false)
         (after_actions lib self step uuid4) h.
Proof. reflexivity. Qed.

(** Whether the response assembly succeeds or not, the trace has been
    extended and the sources are as the processing of actions left them. *)
Lemma after_actions_lists uuid4 reasoning_steps is_done h :
  let h' := snd (after_actions lib self step uuid4 (reasoning_steps, is_done) h) in
  reasoning_lists h'
  = <[current_reasoning_of step :=
        reasoning_at h (current_reasoning_of step) ++ reasoning_steps]>
      (reasoning_lists h)
  /\ source_lists h' = source_lists h.
Proof.
  unfold after_actions, bind; simpl.
  pose proof (get_response_heap lib self
    (StepState.current_reasoning (TaskStep.step_state step))
    (StepState.sources (TaskStep.step_state step))
    (snd (extend_reasoning (StepState.current_reasoning (TaskStep.step_state step))
            reasoning_steps h))) as Hheap.
  simpl in Hheap.
  destruct (_get_response _ _ _ _ _) as [[e|agent_response] h3]; simpl in Hheap; subst h3;
    [done|].
  by destruct is_done.
Qed.

(** The step when the trace, once extended, is not at the cap. *)
Lemma after_actions_below_cap uuid4 reasoning_steps last_step is_done h :
  last reasoning_steps = Some last_step ->
  Z.of_nat (length (reasoning_at h (current_reasoning_of step) ++ reasoning_steps))
    <> _max_iterations self ->
  exists h',
    after_actions lib self step uuid4 (reasoning_steps, is_done) h
    = (inr {| TaskStepOutput.output :=
                {| AgentChatResponse.response := response_text lib last_step;
                   AgentChatResponse.sources := sources_of step |};
              TaskStepOutput.task_step := step;
              TaskStepOutput.is_last := is_done;
              TaskStepOutput.next_steps :=
                if is_done then [] else [TaskStep.get_next_step step uuid4 None] |},
       h').
Proof.
  intros Hlast Hcap.
  unfold after_actions, bind; simpl.
  fold (current_reasoning_of step) (sources_of step).
  set (h2 := {| reasoning_lists := _ |}).
  assert (Hat : reasoning_at h2 (current_reasoning_of step)
                = reasoning_at h (current_reasoning_of step) ++ reasoning_steps)
    by apply reasoning_at_extend.
  destruct (get_response_assembled lib self (current_reasoning_of step)
              (sources_of step) h2) as (last_step' & Hlast' & ->).
  - rewrite Hat. intros Happ. apply app_eq_nil in Happ as [_ ->]. done.
  - by rewrite Hat.
  - rewrite Hat, last_app, Hlast in Hlast'. injection Hlast' as <-.
    destruct is_done; eexists; reflexivity.
Qed.

(** The step when the trace, once extended, is at the cap. *)
Lemma after_actions_at_cap uuid4 reasoning_steps is_done h :
  reasoning_steps <> [] ->
  Z.of_nat (length (reasoning_at h (current_reasoning_of step) ++ reasoning_steps))
    = _max_iterations self ->
  fst (after_actions lib self step uuid4 (reasoning_steps, is_done) h)
  = inl MaxIterationsReached.
Proof.
  intros Hne Hcap.
  unfold after_actions, bind; simpl.
  fold (current_reasoning_of step) (sources_of step).
  set (h2 := {| reasoning_lists := _ |}).
  assert (Hat : reasoning_at h2 (current_reasoning_of step)
                = reasoning_at h (current_reasoning_of step) ++ reasoning_steps)
    by apply reasoning_at_extend.
  rewrite (get_response_at_cap lib self (current_reasoning_of step) (sources_of step) h2).
  - done.
  - rewrite Hat. intros Happ. by apply app_eq_nil in Happ as [_ ->].
  - by rewrite Hat.
Qed.

(** The identifier drawn for the follow-up step shows in the follow-up step
    and nowhere else. *)
Lemma after_actions_uuid4 uuid4 uuid4' processed h :
  snd (after_actions lib self step uuid4 processed h)
  = snd (after_actions lib self step uuid4' processed h)
  /\ forget_ids_of_result (fst (after_actions lib self step uuid4 processed h))
     = forget_ids_of_result (fst (after_actions lib self step uuid4' processed h)).
Proof.
  destruct processed as [reasoning_steps is_done].
  unfold after_actions, bind; simpl.
  destruct (_get_response _ _ _ _ _) as [[e|agent_response] h3]; [done|].
  by destruct is_done.
Qed.

End RunStep.

(** ** Failures of a step run *)

(** C1, as amended.  When the model output parses to an action whose tool
    name is not among the names of the resolved tools, the step run fails
    with UnknownTool and the heap is the one the step run started from: the
    shared trace has neither the action step nor an observation, and the
    sources have no new entry.  The action step was only in the list local
    to the step run. *)
Theorem unknown_tool_leaves_heap lib self step task uuid4 h
    thought action action_input :
  parses_to self (LLM.chat (_llm self) (input_chat_of lib self step task h))
            (ActionReasoningStep thought action action_input) ->
  action ∉ tool_names (get_tools lib self (Task.input task)) ->
  run_step lib self step task uuid4 h = (inl (UnknownTool action), h).
Proof.
  intros Hparse Habsent. rewrite run_step_eq. unfold bind.
  rewrite (process_actions_unknown_tool _ _ _ _ thought action action_input); try done.
  by apply tools_dict_lookup_None.
Qed.

Lemma unknown_tool_leaves_heap_witness :
  parses_to lost_engine
    (LLM.chat (_llm lost_engine)
       (input_chat_of demo_lib lost_engine demo_step demo_task empty_heap))
    (ActionReasoningStep "try" "nonexistent" ∅) /\
  ("nonexistent" ∉ tool_names (get_tools demo_lib lost_engine (Task.input demo_task))) /\
  run_step demo_lib lost_engine demo_step demo_task "step-1" empty_heap
  = (inl (UnknownTool "nonexistent"), empty_heap).
Proof.
  assert (H1 : parses_to lost_engine
    (LLM.chat (_llm lost_engine)
       (input_chat_of demo_lib lost_engine demo_step demo_task empty_heap))
    (ActionReasoningStep "try" "nonexistent" ∅))
    by (exists "nonexistent"; split; reflexivity).
  assert (H2 : "nonexistent" ∉
                 tool_names (get_tools demo_lib lost_engine (Task.input demo_task)))
    by (apply (bool_decide_unpack _); vm_compute; exact I).
  exact (conj H1 (conj H2
    (unknown_tool_leaves_heap demo_lib lost_engine demo_step demo_task "step-1"
       empty_heap "try" "nonexistent" ∅ H1 H2))).
Defined.

(** C1, as stated, fails: after the failed lookup the shared trace is not
    the trace of before followed by the action step. *)
Lemma unknown_tool_action_not_in_trace :
  parses_to lost_engine
    (LLM.chat (_llm lost_engine)
       (input_chat_of demo_lib lost_engine demo_step demo_task empty_heap))
    (ActionReasoningStep "try" "nonexistent" ∅) /\
  ("nonexistent" ∉ tool_names (get_tools demo_lib lost_engine (Task.input demo_task))) /\
  fst (run_step demo_lib lost_engine demo_step demo_task "step-1" empty_heap)
  = inl (UnknownTool "nonexistent") /\
  reasoning_at
    (snd (run_step demo_lib lost_engine demo_step demo_task "step-1" empty_heap))
    (current_reasoning_of demo_step)
  <> reasoning_at empty_heap (current_reasoning_of demo_step)
     ++ [ActionReasoningStep "try" "nonexistent" ∅].
Proof.
  split; [by exists "nonexistent" |].
  split; [apply (bool_decide_unpack _); vm_compute; exact I |].
  split; [reflexivity |].
  intros H. vm_compute in H. discriminate H.
Qed.

(** C10.  When the tool that the action resolves to raises, the step run
    fails with the tool's exception and the heap is the one the step run
    started from: nothing was appended to the sources, and nothing to the
    shared trace, not even the action step. *)
Theorem tool_exception_leaves_heap lib self step task uuid4 h
    thought action action_input tool exc :
  parses_to self (LLM.chat (_llm self) (input_chat_of lib self step task h))
            (ActionReasoningStep thought action action_input) ->
  tools_dict_sync (get_tools lib self (Task.input task)) !! action = Some tool ->
  AsyncBaseTool.call tool action_input = inl exc ->
  run_step lib self step task uuid4 h = (inl (ToolExecutionError exc), h).
Proof.
  intros Hparse Hlookup Hcall. rewrite run_step_eq. unfold bind.
  by rewrite (process_actions_tool_raises _ _ _ _ thought action action_input tool exc).
Qed.

Lemma tool_exception_leaves_heap_witness :
  run_step demo_lib careless_engine demo_step demo_task "step-1" empty_heap
  = (inl (ToolExecutionError "missing argument q"), empty_heap).
Proof.
  apply (tool_exception_leaves_heap demo_lib careless_engine demo_step demo_task
           "step-1" empty_heap "look it up" "search" ∅
           (adapt_to_async_tool demo_lib search_tool) "missing argument q").
  - exists "search". split; reflexivity.
  - vm_compute. reflexivity.
  - reflexivity.
Defined.

(** ** The response assembly and the cap *)

(** C3.  Response assembly over a trace that is not empty and whose length
    is the configured maximum iteration count fails with
    MaxIterationsReached, whatever the steps of the trace are; so it does
    when the trace reaches that length without a terminal step. *)
Theorem max_iterations_reached lib self current_reasoning sources h :
  reasoning_at h current_reasoning <> [] ->
  Z.of_nat (length (reasoning_at h current_reasoning)) = _max_iterations self ->
  _get_response lib self current_reasoning sources h = (inl MaxIterationsReached, h).
Proof. apply get_response_at_cap. Qed.

Lemma max_iterations_reached_witness :
  _get_response demo_lib searching_engine_cap_2 1%positive 1%positive
    (snd (extend_reasoning 1%positive
            [ActionReasoningStep "look it up" "search" {[ "q" := "x" ]};
             ObservationReasoningStep "result-y"] empty_heap))
  = (inl MaxIterationsReached,
     snd (extend_reasoning 1%positive
            [ActionReasoningStep "look it up" "search" {[ "q" := "x" ]};
             ObservationReasoningStep "result-y"] empty_heap)).
Proof.
  apply (max_iterations_reached demo_lib searching_engine_cap_2).
  - rewrite reasoning_at_extend. discriminate.
  - rewrite reasoning_at_extend. reflexivity.
Defined.

(** A step run whose extension brings the trace to the cap fails this way,
    for a response as well as for an action. *)
Lemma run_step_at_cap lib self step task uuid4 h s :
  parses_to self (LLM.chat (_llm self) (input_chat_of lib self step task h)) s ->
  can_complete (get_tools lib self (Task.input task)) s ->
  Z.of_nat (length (reasoning_at h (current_reasoning_of step)) + entries_added s)
  = _max_iterations self ->
  fst (run_step lib self step task uuid4 h) = inl MaxIterationsReached.
Proof.
  intros Hparse Hcan Hcap. rewrite run_step_eq. unfold bind.
  destruct s as [thought action action_input | observation | response];
    simpl in Hcan; [| done |].
  - destruct Hcan as (tool & tool_output & Hlookup & Hcall).
    rewrite (process_actions_tool_returns _ _ _ _ thought action action_input
               tool tool_output) by done.
    apply after_actions_at_cap; [done|].
    rewrite length_app. simpl. exact Hcap.
  - rewrite (process_actions_response _ _ _ _ response) by done.
    apply after_actions_at_cap; [done|].
    rewrite length_app. simpl. exact Hcap.
Qed.

(** C7.  Over a trace that is not empty and whose length is not the maximum
    iteration count, the assembled text is the answer of the last step when
    that step is a response and the rendering of the last step otherwise;
    no call of the response assembly changes the heap. *)
Theorem response_assembly_text lib self current_reasoning sources h :
  reasoning_at h current_reasoning <> [] ->
  Z.of_nat (length (reasoning_at h current_reasoning)) <> _max_iterations self ->
  (exists last_step,
      last (reasoning_at h current_reasoning) = Some last_step /\
      _get_response lib self current_reasoning sources h
      = (inr {| AgentChatResponse.response :=
                  match last_step with
                  | ResponseReasoningStep response => response
                  | _ => get_content lib last_step
                  end;
                AgentChatResponse.sources := sources |}, h)) /\
  (forall current_reasoning' sources' h',
      snd (_get_response lib self current_reasoning' sources' h') = h').
Proof.
  intros Hne Hcap. split.
  - by apply get_response_assembled.
  - intros. apply get_response_heap.
Qed.

Lemma response_assembly_text_witness :
  (exists last_step,
      last (reasoning_at
              (snd (extend_reasoning 1%positive
                      [ObservationReasoningStep "result-y"] empty_heap)) 1%positive)
      = Some last_step /\
      _get_response demo_lib answering_engine 1%positive 2%positive
        (snd (extend_reasoning 1%positive
                [ObservationReasoningStep "result-y"] empty_heap))
      = (inr {| AgentChatResponse.response :=
                  match last_step with
                  | ResponseReasoningStep response => response
                  | _ => get_content demo_lib last_step
                  end;
                AgentChatResponse.sources := 2%positive |},
         snd (extend_reasoning 1%positive
                [ObservationReasoningStep "result-y"] empty_heap))) /\
  (forall current_reasoning' sources' h',
      snd (_get_response demo_lib answering_engine current_reasoning' sources' h') = h').
Proof.
  apply (response_assembly_text demo_lib answering_engine).
  - rewrite reasoning_at_extend. discriminate.
  - rewrite reasoning_at_extend. discriminate.
Defined.

Example response_assembly_of_observation :
  fst (_get_response demo_lib answering_engine 1%positive 2%positive
         (snd (extend_reasoning 1%positive
                 [ObservationReasoningStep "result-y"] empty_heap)))
  = inr {| AgentChatResponse.response := "Observation: result-y";
           AgentChatResponse.sources := 2%positive |}.
Proof. reflexivity. Qed.

Example response_assembly_of_response :
  fst (_get_response demo_lib answering_engine 1%positive 2%positive
         (snd (extend_reasoning 1%positive
                 [ResponseReasoningStep "42"] empty_heap)))
  = inr {| AgentChatResponse.response := "42";
           AgentChatResponse.sources := 2%positive |}.
Proof. reflexivity. Qed.

(** ** Streaming *)

(** C9.  For every step and heap, both streaming entry points fail with
    UnsupportedStreaming: they return no output, and the heap is unchanged. *)
Theorem streaming_unsupported self step task h :
  stream_step self step task h = (inl UnsupportedStreaming, h) /\
  astream_step self step task h = (inl UnsupportedStreaming, h).
Proof. split; reflexivity. Qed.

(** ** Construction *)

(** C6.  With a fixed tool list that is not empty and a retriever, the
    construction fails with AmbiguousToolSource, so no engine exists to run
    a step; with an empty tool list and no retriever it gives an engine
    that resolves no tool for any input. *)
Theorem init_tool_sources lib tool tools llm max_iterations
    react_chat_formatter output_parser verbose tool_retriever :
  __init__ lib (tool :: tools) llm max_iterations react_chat_formatter
           output_parser verbose (Some tool_retriever)
  = inl AmbiguousToolSource /\
  exists self,
    __init__ lib [] llm max_iterations react_chat_formatter
             output_parser verbose None = inr self /\
    forall input, _get_tools self input = [] /\ get_tools lib self input = [].
Proof.
  split; [reflexivity|].
  eexists. split; [reflexivity|]. intros input. split; reflexivity.
Qed.

(** The other two branches of the constructor. *)
Lemma init_fixed_tools lib tool tools llm max_iterations
    react_chat_formatter output_parser verbose :
  exists self,
    __init__ lib (tool :: tools) llm max_iterations react_chat_formatter
             output_parser verbose None = inr self /\
    forall input, _get_tools self input = tool :: tools.
Proof. eexists. split; [reflexivity|]. done. Qed.

Lemma init_retriever lib llm max_iterations
    react_chat_formatter output_parser verbose tool_retriever :
  exists self,
    __init__ lib [] llm max_iterations react_chat_formatter
             output_parser verbose (Some tool_retriever) = inr self /\
    forall input, _get_tools self input = ObjectRetriever.retrieve tool_retriever input.
Proof. eexists. split; [reflexivity|]. done. Qed.

Lemma from_tools_neither lib llm max_iterations
    react_chat_formatter output_parser verbose :
  exists self,
    from_tools lib None None llm max_iterations react_chat_formatter
               output_parser verbose = inr self /\
    forall input, get_tools lib self input = [].
Proof. eexists. split; [reflexivity|]. done. Qed.

(** ** The output of a step run *)

(** A step run whose extension does not bring the trace to the cap
    returns, and this is its output. *)
Lemma run_step_below_cap lib self step task uuid4 h s :
  parses_to self (LLM.chat (_llm self) (input_chat_of lib self step task h)) s ->
  can_complete (get_tools lib self (Task.input task)) s ->
  Z.of_nat (length (reasoning_at h (current_reasoning_of step)) + entries_added s)
  <> _max_iterations self ->
  exists out h',
    run_step lib self step task uuid4 h = (inr out, h') /\
    TaskStepOutput.task_step out = step /\
    TaskStepOutput.is_last out = is_done s /\
    TaskStepOutput.next_steps out
    = (if is_done s then [] else [TaskStep.get_next_step step uuid4 None]) /\
    AgentChatResponse.sources (TaskStepOutput.output out) = sources_of step /\
    (forall response,
        s = ResponseReasoningStep response ->
        AgentChatResponse.response (TaskStepOutput.output out) = response).
Proof.
  intros Hparse Hcan Hcap. rewrite run_step_eq. unfold bind.
  destruct s as [thought action action_input | observation | response];
    simpl in Hcan; [| done |].
  - destruct Hcan as (tool & tool_output & Hlookup & Hcall).
    rewrite (process_actions_tool_returns _ _ _ _ thought action action_input
               tool tool_output) by done.
    destruct (after_actions_below_cap lib self step uuid4
                [ActionReasoningStep thought action action_input;
                 ObservationReasoningStep (ToolOutput.str tool_output)]
                (ObservationReasoningStep (ToolOutput.str tool_output)) false
                (snd (append_source (sources_of step) tool_output h)))
      as [h' ->]; [done | | by eexists _, h'].
    rewrite length_app. simpl. exact Hcap.
  - rewrite (process_actions_response _ _ _ _ response) by done.
    destruct (after_actions_below_cap lib self step uuid4
                [ResponseReasoningStep response] (ResponseReasoningStep response)
                true h)
      as [h' ->]; [done | | ].
    + rewrite length_app. simpl. exact Hcap.
    + eexists _, h'. repeat split. by intros ? [= <-].
Qed.

(** C4, as amended.  When the trace extended by the step run does not have
    the length of the cap: a model output that parses to a response gives
    is_last = true and no follow-up step; one that parses to an action whose
    tool is registered and returns gives is_last = false and exactly one
    follow-up step, which shares the state of the step. *)
Theorem run_step_outcome lib self step task uuid4 h s :
  parses_to self (LLM.chat (_llm self) (input_chat_of lib self step task h)) s ->
  can_complete (get_tools lib self (Task.input task)) s ->
  Z.of_nat (length (reasoning_at h (current_reasoning_of step)) + entries_added s)
  <> _max_iterations self ->
  exists out h',
    run_step lib self step task uuid4 h = (inr out, h') /\
    match s with
    | ResponseReasoningStep _ =>
        TaskStepOutput.is_last out = true /\ TaskStepOutput.next_steps out = []
    | _ =>
        TaskStepOutput.is_last out = false /\
        TaskStepOutput.next_steps out = [TaskStep.get_next_step step uuid4 None]
    end.
Proof.
  intros Hparse Hcan Hcap.
  destruct (run_step_below_cap lib self step task uuid4 h s Hparse Hcan Hcap)
    as (out & h' & Hrun & _ & Hlast & Hnext & _).
  exists out, h'. split; [done|]. by destruct s.
Qed.

Lemma run_step_outcome_witness :
  exists out h',
    run_step demo_lib answering_engine demo_step demo_task "step-1" empty_heap
    = (inr out, h') /\
    TaskStepOutput.is_last out = true /\ TaskStepOutput.next_steps out = [].
Proof.
  apply (run_step_outcome demo_lib answering_engine demo_step demo_task "step-1"
           empty_heap (ResponseReasoningStep "42")).
  - exists "42". split; reflexivity.
  - exact I.
  - vm_compute. discriminate.
Defined.

Example action_step_gets_follow_up :
  exists out h',
    run_step demo_lib two_phase_engine demo_step demo_task "step-1" empty_heap
    = (inr out, h') /\
    TaskStepOutput.is_last out = false /\
    TaskStepOutput.next_steps out = [TaskStep.get_next_step demo_step "step-1" None].
Proof.
  destruct (run_step_below_cap demo_lib two_phase_engine demo_step demo_task "step-1"
              empty_heap (ActionReasoningStep "look it up" "search" {[ "q" := "x" ]}))
    as (out & h' & Hrun & _ & Hlast & Hnext & _).
  - exists "search x". split; reflexivity.
  - exists (adapt_to_async_tool demo_lib search_tool), result_y.
    split; vm_compute; reflexivity.
  - vm_compute. discriminate.
  - by exists out, h'.
Qed.

(** C4, as stated, fails at the cap.  With a cap of 1 and an empty trace, a
    model output that parses to a response makes the step run fail, and so
    does, with a cap of 2, one that parses to an action whose tool is
    registered and returns. *)
Lemma run_step_at_cap_has_no_output :
  (parses_to answering_engine_cap_1
     (LLM.chat (_llm answering_engine_cap_1)
        (input_chat_of demo_lib answering_engine_cap_1 demo_step demo_task empty_heap))
     (ResponseReasoningStep "42") /\
   ~ exists out h',
       run_step demo_lib answering_engine_cap_1 demo_step demo_task "step-1" empty_heap
       = (inr out, h') /\
       TaskStepOutput.is_last out = true /\ TaskStepOutput.next_steps out = []) /\
  (parses_to searching_engine_cap_2
     (LLM.chat (_llm searching_engine_cap_2)
        (input_chat_of demo_lib searching_engine_cap_2 demo_step demo_task empty_heap))
     (ActionReasoningStep "look it up" "search" {[ "q" := "x" ]}) /\
   tools_dict_sync (get_tools demo_lib searching_engine_cap_2 (Task.input demo_task))
     !! "search" = Some (adapt_to_async_tool demo_lib search_tool) /\
   AsyncBaseTool.call (adapt_to_async_tool demo_lib search_tool) {[ "q" := "x" ]}
   = inr result_y /\
   ~ exists out h',
       run_step demo_lib searching_engine_cap_2 demo_step demo_task "step-1" empty_heap
       = (inr out, h') /\
       TaskStepOutput.is_last out = false /\
       exists next_step, TaskStepOutput.next_steps out = [next_step]).
Proof.
  split.
  - split; [by exists "42" |].
    intros (out & h' & Hrun & _).
    apply (f_equal fst) in Hrun. vm_compute in Hrun. discriminate Hrun.
  - split; [by exists "search x" |].
    split; [vm_compute; reflexivity |].
    split; [vm_compute; reflexivity |].
    intros (out & h' & Hrun & _).
    apply (f_equal fst) in Hrun. vm_compute in Hrun. discriminate Hrun.
Qed.

(** ** The trace only grows *)

(** What a step run leaves in the reasoning lists when it returns. *)
Lemma run_step_reasoning_lists lib self step task uuid4 h out h' :
  run_step lib self step task uuid4 h = (inr out, h') ->
  exists reasoning_steps,
    reasoning_steps <> [] /\
    reasoning_lists h'
    = <[current_reasoning_of step :=
          reasoning_at h (current_reasoning_of step) ++ reasoning_steps]>
        (reasoning_lists h).
Proof.
  rewrite run_step_eq. unfold bind.
  destruct (_process_actions _ _ _ _ _ _) as [[e|[reasoning_steps is_done]] h1] eqn:Hproc;
    [done|].
  apply process_actions_success in Hproc as (Hne & Hlists & _).
  intros Hafter. exists reasoning_steps. split; [done|].
  destruct (after_actions_lists lib self step uuid4 reasoning_steps is_done h1)
    as [Hr _].
  rewrite Hafter in Hr. simpl in Hr. rewrite Hr.
  unfold reasoning_at. by rewrite Hlists.
Qed.

(** C8.  A step run that returns leaves the shared trace strictly longer
    than it found it, with every entry of before at its index; the other
    reasoning lists of the heap are as they were. *)
Theorem current_reasoning_grows lib self step task uuid4 h out h' :
  run_step lib self step task uuid4 h = (inr out, h') ->
  (length (reasoning_at h (current_reasoning_of step))
   < length (reasoning_at h' (current_reasoning_of step)))%nat /\
  (forall (i : nat) (s : BaseReasoningStep),
      reasoning_at h (current_reasoning_of step) !! i = Some s ->
      reasoning_at h' (current_reasoning_of step) !! i = Some s) /\
  (forall r, r <> current_reasoning_of step -> reasoning_at h' r = reasoning_at h r).
Proof.
  intros Hrun.
  apply run_step_reasoning_lists in Hrun as (reasoning_steps & Hne & Hlists).
  assert (Hat : reasoning_at h' (current_reasoning_of step)
                = reasoning_at h (current_reasoning_of step) ++ reasoning_steps).
  { unfold reasoning_at at 1. by rewrite Hlists, lookup_insert_eq. }
  repeat split.
  - rewrite Hat, length_app. destruct reasoning_steps; [done | simpl; lia].
  - intros i s Hi. rewrite Hat. by apply lookup_app_l_Some.
  - intros r Hr. unfold reasoning_at. by rewrite Hlists, lookup_insert_ne.
Qed.

Lemma current_reasoning_grows_witness :
  exists out h',
    run_step demo_lib two_phase_engine demo_step demo_task "step-1" empty_heap
    = (inr out, h') /\
    (length (reasoning_at empty_heap (current_reasoning_of demo_step))
     < length (reasoning_at h' (current_reasoning_of demo_step)))%nat.
Proof.
  destruct (run_step demo_lib two_phase_engine demo_step demo_task "step-1" empty_heap)
    as [[e|out] h'] eqn:Hrun.
  - apply (f_equal fst) in Hrun. vm_compute in Hrun. discriminate Hrun.
  - exists out, h'. split; [reflexivity |].
    exact (proj1 (current_reasoning_grows demo_lib two_phase_engine demo_step demo_task
                    "step-1" empty_heap out h' Hrun)).
Defined.

(** ** The blocking and the suspending form *)

(** C2.  When the model answers the suspending call as it answers the
    blocking call, and every resolved tool returns (or raises) in its
    suspending call what it does in its blocking call, the two forms of the
    step run leave the same heap (sources, traces and memories) and return
    the same result, the identifier drawn for the follow-up step apart. *)
Theorem run_step_arun_step_agree lib self step task uuid4 uuid4' h :
  LLM.chat (_llm self) (input_chat_of lib self step task h)
  = LLM.achat (_llm self) (input_chat_of lib self step task h) ->
  (forall tool action_input,
      tool ∈ get_tools lib self (Task.input task) ->
      AsyncBaseTool.call tool action_input = AsyncBaseTool.acall tool action_input) ->
  snd (run_step lib self step task uuid4 h)
  = snd (arun_step lib self step task uuid4' h) /\
  forget_ids_of_result (fst (run_step lib self step task uuid4 h))
  = forget_ids_of_result (fst (arun_step lib self step task uuid4' h)).
Proof.
  intros Hchat Hcalls. rewrite run_step_eq, arun_step_eq, Hchat.
  unfold bind.
  rewrite (process_actions_aprocess_actions self step _ _ h Hcalls).
  destruct (_aprocess_actions _ _ _ _ _ _) as [[e|processed] h1]; [done|].
  apply after_actions_uuid4.
Qed.

Lemma run_step_arun_step_agree_witness :
  snd (run_step demo_lib two_phase_engine demo_step demo_task "step-1" empty_heap)
  = snd (arun_step demo_lib two_phase_engine demo_step demo_task "step-2" empty_heap) /\
  forget_ids_of_result
    (fst (run_step demo_lib two_phase_engine demo_step demo_task "step-1" empty_heap))
  = forget_ids_of_result
      (fst (arun_step demo_lib two_phase_engine demo_step demo_task "step-2" empty_heap)).
Proof.
  apply (run_step_arun_step_agree demo_lib two_phase_engine demo_step demo_task
           "step-1" "step-2" empty_heap).
  - reflexivity.
  - intros tool action_input Hin.
    apply list_elem_of_singleton in Hin as ->. reflexivity.
Defined.

(** With the same identifier the two forms agree outright. *)
Lemma run_step_arun_step_same_uuid4 lib self step task uuid4 h :
  LLM.chat (_llm self) (input_chat_of lib self step task h)
  = LLM.achat (_llm self) (input_chat_of lib self step task h) ->
  (forall tool action_input,
      tool ∈ get_tools lib self (Task.input task) ->
      AsyncBaseTool.call tool action_input = AsyncBaseTool.acall tool action_input) ->
  run_step lib self step task uuid4 h = arun_step lib self step task uuid4 h.
Proof.
  intros Hchat Hcalls. rewrite run_step_eq, arun_step_eq, Hchat.
  unfold bind.
  by rewrite (process_actions_aprocess_actions self step _ _ h Hcalls).
Qed.

(** The identifiers do differ in the follow-up steps. *)
Example follow_up_steps_differ :
  fst (run_step demo_lib two_phase_engine demo_step demo_task "step-1" empty_heap)
  <> fst (arun_step demo_lib two_phase_engine demo_step demo_task "step-2" empty_heap).
Proof. intros H. vm_compute in H. discriminate H. Qed.

(** ** Two steps of one task *)

Section StateAfterRunStep.

Variable lib : Library.
Variable self : ReActAgentStepEngine.t.
Variables (step : TaskStep.t) (task : Task.t).

Lemma after_actions_memories_not_done uuid4 reasoning_steps h :
  memories (snd (after_actions lib self step uuid4 (reasoning_steps, false) h))
  = memories h.
Proof.
  unfold after_actions, bind; simpl.
  pose proof (get_response_heap lib self
    (StepState.current_reasoning (TaskStep.step_state step))
    (StepState.sources (TaskStep.step_state step))
    (snd (extend_reasoning (StepState.current_reasoning (TaskStep.step_state step))
            reasoning_steps h))) as Hheap.
  simpl in Hheap.
  by destruct (_get_response _ _ _ _ _) as [[e|agent_response] h3];
    simpl in Hheap; subst h3.
Qed.

(** The heap after a step run whose action is carried out; the result of
    the step run may be an output or the failure at the cap. *)
Lemma run_step_action_state uuid4 h thought action action_input tool tool_output :
  parses_to self (LLM.chat (_llm self) (input_chat_of lib self step task h))
            (ActionReasoningStep thought action action_input) ->
  tools_dict_sync (get_tools lib self (Task.input task)) !! action = Some tool ->
  AsyncBaseTool.call tool action_input = inr tool_output ->
  reasoning_at (snd (run_step lib self step task uuid4 h)) (current_reasoning_of step)
  = reasoning_at h (current_reasoning_of step)
    ++ [ActionReasoningStep thought action action_input;
        ObservationReasoningStep (ToolOutput.str tool_output)]
  /\ sources_at (snd (run_step lib self step task uuid4 h)) (sources_of step)
     = sources_at h (sources_of step) ++ [tool_output]
  /\ memories (snd (run_step lib self step task uuid4 h)) = memories h.
Proof.
  intros Hparse Hlookup Hcall. rewrite run_step_eq. unfold bind.
  rewrite (process_actions_tool_returns _ _ _ _ thought action action_input
             tool tool_output) by done.
  set (h1 := snd (append_source (sources_of step) tool_output h)).
  destruct (after_actions_lists lib self step uuid4
              [ActionReasoningStep thought action action_input;
               ObservationReasoningStep (ToolOutput.str tool_output)] false h1)
    as [Hr Hs].
  repeat split.
  - unfold reasoning_at at 1. by rewrite Hr, lookup_insert_eq.
  - unfold sources_at at 1. rewrite Hs. unfold h1. simpl.
    by rewrite lookup_insert_eq.
  - by rewrite after_actions_memories_not_done.
Qed.

(** The heap after a step run whose model output is a response. *)
Lemma run_step_response_state uuid4 h response :
  parses_to self (LLM.chat (_llm self) (input_chat_of lib self step task h))
            (ResponseReasoningStep response) ->
  reasoning_at (snd (run_step lib self step task uuid4 h)) (current_reasoning_of step)
  = reasoning_at h (current_reasoning_of step) ++ [ResponseReasoningStep response]
  /\ source_lists (snd (run_step lib self step task uuid4 h)) = source_lists h.
Proof.
  intros Hparse. rewrite run_step_eq. unfold bind.
  rewrite (process_actions_response _ _ _ _ response) by done.
  destruct (after_actions_lists lib self step uuid4
              [ResponseReasoningStep response] true h) as [Hr Hs].
  split; [|done].
  unfold reasoning_at at 1. by rewrite Hr, lookup_insert_eq.
Qed.

End StateAfterRunStep.

(** C5.  A task is initialised; the model, asked with the empty trace,
    answers with an action whose tool is registered and returns an output;
    asked with the trace of that action and its observation, it answers with
    a response.  After the run of the first step and the run of its
    follow-up step, the sources are that one output and the trace is the
    action, the observation and the response, in this order.  Unless the
    cap is 2 the first run returns that follow-up step, and unless the cap
    is 2 or 3 the second run returns the answer as the last step. *)
Theorem two_step_scenario lib self task h uuid4_0 uuid4_1 uuid4_2
    thought action action_input tool tool_output answer :
  parses_to self
    (LLM.chat (_llm self)
       (ReActChatFormatter.format (_react_chat_formatter self)
          (get_tools lib self (Task.input task))
          (memory_at h (Task.memory task)) []))
    (ActionReasoningStep thought action action_input) ->
  tools_dict_sync (get_tools lib self (Task.input task)) !! action = Some tool ->
  AsyncBaseTool.call tool action_input = inr tool_output ->
  parses_to self
    (LLM.chat (_llm self)
       (ReActChatFormatter.format (_react_chat_formatter self)
          (get_tools lib self (Task.input task))
          (memory_at h (Task.memory task))
          [ActionReasoningStep thought action action_input;
           ObservationReasoningStep (ToolOutput.str tool_output)]))
    (ResponseReasoningStep answer) ->
  exists step0 h0 result1 h1 result2 h2,
    initialize_step task uuid4_0 h = (inr step0, h0) /\
    run_step lib self step0 task uuid4_1 h0 = (result1, h1) /\
    run_step lib self (TaskStep.get_next_step step0 uuid4_1 None) task uuid4_2 h1
    = (result2, h2) /\
    sources_at h2 (sources_of step0) = [tool_output] /\
    reasoning_at h2 (current_reasoning_of step0)
    = [ActionReasoningStep thought action action_input;
       ObservationReasoningStep (ToolOutput.str tool_output);
       ResponseReasoningStep answer] /\
    (_max_iterations self <> 2 ->
     exists out1,
       result1 = inr out1 /\
       TaskStepOutput.is_last out1 = false /\
       TaskStepOutput.next_steps out1 = [TaskStep.get_next_step step0 uuid4_1 None]) /\
    (_max_iterations self <> 2 -> _max_iterations self <> 3 ->
     exists out2,
       result2 = inr out2 /\
       TaskStepOutput.is_last out2 = true /\
       TaskStepOutput.next_steps out2 = [] /\
       AgentChatResponse.response (TaskStepOutput.output out2) = answer).
Proof.
  intros Hparse1 Hlookup Hcall Hparse2.
  destruct (initialize_step task uuid4_0 h) as [result0 h0] eqn:Hinit.
  unfold initialize_step in Hinit. injection Hinit as <- <-.
  set (step0 := {| TaskStep.task_id := Task.task_id task |}).
  set (h0 := {| reasoning_lists := _ |}).
  set (step1 := TaskStep.get_next_step step0 uuid4_1 None).
  assert (Hr0 : reasoning_at h0 (current_reasoning_of step0) = []).
  { unfold reasoning_at, h0. simpl. by rewrite lookup_insert_eq. }
  assert (Hs0 : sources_at h0 (sources_of step0) = []).
  { unfold sources_at, h0. simpl. by rewrite lookup_insert_eq. }
  assert (Hchat1 : input_chat_of lib self step0 task h0
                   = ReActChatFormatter.format (_react_chat_formatter self)
                       (get_tools lib self (Task.input task))
                       (memory_at h (Task.memory task)) []).
  { unfold input_chat_of. by rewrite Hr0. }
  rewrite <- Hchat1 in Hparse1.
  destruct (run_step_action_state lib self step0 task uuid4_1 h0
              thought action action_input tool tool_output Hparse1 Hlookup Hcall)
    as (Hr1 & Hs1 & Hm1).
  rewrite Hr0 in Hr1. rewrite Hs0 in Hs1. simpl in Hr1, Hs1.
  set (run1 := run_step lib self step0 task uuid4_1 h0) in *.
  assert (Hchat2 : input_chat_of lib self step1 task (snd run1)
                   = ReActChatFormatter.format (_react_chat_formatter self)
                       (get_tools lib self (Task.input task))
                       (memory_at h (Task.memory task))
                       [ActionReasoningStep thought action action_input;
                        ObservationReasoningStep (ToolOutput.str tool_output)]).
  { unfold input_chat_of.
    change (current_reasoning_of step1) with (current_reasoning_of step0).
    rewrite Hr1. unfold memory_at. by rewrite Hm1. }
  rewrite <- Hchat2 in Hparse2.
  destruct (run_step_response_state lib self step1 task uuid4_2 (snd run1)
              answer Hparse2) as (Hr2 & Hs2).
  change (current_reasoning_of step1) with (current_reasoning_of step0) in Hr2.
  rewrite Hr1 in Hr2. simpl in Hr2.
  set (run2 := run_step lib self step1 task uuid4_2 (snd run1)) in *.
  exists step0, h0, (fst run1), (snd run1), (fst run2), (snd run2).
  split; [reflexivity|].
  split; [apply surjective_pairing|].
  split; [apply surjective_pairing|].
  split; [unfold sources_at; rewrite Hs2; exact Hs1|].
  split; [exact Hr2|].
  split.
  - intros Hcap2.
    destruct (run_step_below_cap lib self step0 task uuid4_1 h0
                (ActionReasoningStep thought action action_input))
      as (out1 & h1 & Hrun1 & _ & Hlast & Hnext & _).
    + exact Hparse1.
    + by exists tool, tool_output.
    + rewrite Hr0. unfold entries_added. simpl. lia.
    + exists out1. fold run1 in Hrun1. by rewrite Hrun1.
  - intros Hcap2 Hcap3.
    destruct (run_step_below_cap lib self step1 task uuid4_2 (snd run1)
                (ResponseReasoningStep answer))
      as (out2 & h2 & Hrun2 & _ & Hlast & Hnext & _ & Hanswer).
    + exact Hparse2.
    + exact I.
    + change (current_reasoning_of step1) with (current_reasoning_of step0).
      rewrite Hr1. unfold entries_added. simpl. lia.
    + exists out2. fold run2 in Hrun2. rewrite Hrun2. repeat split; try done.
      by apply Hanswer.
Qed.

Lemma two_step_scenario_witness :
  exists step0 h0 result1 h1 result2 h2,
    initialize_step demo_task "step-0" empty_heap = (inr step0, h0) /\
    run_step demo_lib two_phase_engine step0 demo_task "step-1" h0 = (result1, h1) /\
    run_step demo_lib two_phase_engine (TaskStep.get_next_step step0 "step-1" None)
      demo_task "step-2" h1
    = (result2, h2) /\
    sources_at h2 (sources_of step0) = [result_y] /\
    reasoning_at h2 (current_reasoning_of step0)
    = [ActionReasoningStep "look it up" "search" {[ "q" := "x" ]};
       ObservationReasoningStep (ToolOutput.str result_y);
       ResponseReasoningStep "42"] /\
    (_max_iterations two_phase_engine <> 2 ->
     exists out1,
       result1 = inr out1 /\
       TaskStepOutput.is_last out1 = false /\
       TaskStepOutput.next_steps out1 = [TaskStep.get_next_step step0 "step-1" None]) /\
    (_max_iterations two_phase_engine <> 2 -> _max_iterations two_phase_engine <> 3 ->
     exists out2,
       result2 = inr out2 /\
       TaskStepOutput.is_last out2 = true /\
       TaskStepOutput.next_steps out2 = [] /\
       AgentChatResponse.response (TaskStepOutput.output out2) = "42").
Proof.
  apply (two_step_scenario demo_lib two_phase_engine demo_task empty_heap
           "step-0" "step-1" "step-2" "look it up" "search" {[ "q" := "x" ]}
           (adapt_to_async_tool demo_lib search_tool) result_y "42").
  - exists "search x". split; reflexivity.
  - vm_compute. reflexivity.
  - vm_compute. reflexivity.
  - exists "42". split; reflexivity.
Defined.

Example second_run_sees_first_source :
  sources_at
    (snd (run_step demo_lib two_phase_engine (TaskStep.get_next_step demo_step "step-1" None)
            demo_task "step-2"
            (snd (run_step demo_lib two_phase_engine demo_step demo_task "step-1"
                    empty_heap))))
    1%positive
  = [result_y].
Proof. vm_compute. reflexivity. Qed.

(** ** Every run of a step, in either form *)

Section StepRuns.

Variable lib : Library.
Variable self : ReActAgentStepEngine.t.
Variables (step : TaskStep.t) (task : Task.t).

Lemma after_actions_result uuid4 reasoning_steps last_step is_done h :
  last reasoning_steps = Some last_step ->
  after_actions lib self step uuid4 (reasoning_steps, is_done) h
  = if bool_decide
         (Z.of_nat (length (reasoning_at h (current_reasoning_of step) ++ reasoning_steps))
          = _max_iterations self)
    then (inl MaxIterationsReached,
          exec (extend_reasoning (current_reasoning_of step) reasoning_steps) h)
    else (inr (output_of lib step uuid4 last_step is_done),
          if is_done
          then exec (memory_put (TaskStep.memory step)
                       (assistant_turn (response_text lib last_step)))
                 (exec (extend_reasoning (current_reasoning_of step) reasoning_steps) h)
          else exec (extend_reasoning (current_reasoning_of step) reasoning_steps) h).
Proof.
  intros Hlast.
  assert (Hne : reasoning_steps <> []) by (intros ->; discriminate Hlast).
  unfold after_actions, bind, exec; simpl.
  fold (current_reasoning_of step) (sources_of step).
  set (h2 := {| reasoning_lists := _ |}).
  assert (Hat : reasoning_at h2 (current_reasoning_of step)
                = reasoning_at h (current_reasoning_of step) ++ reasoning_steps)
    by apply reasoning_at_extend.
  assert (Hne2 : reasoning_at h2 (current_reasoning_of step) <> []).
  { rewrite Hat. intros Happ. by apply app_eq_nil in Happ as [_ ->]. }
  case_bool_decide as Hcap.
  - rewrite (get_response_at_cap lib self _ (sources_of step) h2); [done | done |].
    by rewrite Hat.
  - destruct (get_response_assembled lib self (current_reasoning_of step)
                (sources_of step) h2) as (last_step' & Hlast' & ->); [done | |].
    + by rewrite Hat.
    + rewrite Hat, last_app, Hlast in Hlast'. injection Hlast' as <-.
      by destruct is_done.
Qed.

Lemma process_actions_step_run uuid4 tools output h :
  step_run lib self step uuid4 h
    (bind (_process_actions self step tools output false)
          (after_actions lib self step uuid4) h).
Proof.
  remember (after_actions lib self step uuid4) as k eqn:Hk.
  unfold bind, _process_actions, bind, lift, _extract_reasoning_step.
  destruct (ChatMessage.content (ChatResponse.message output)) as [c|];
    [| by constructor].
  destruct (ReActOutputParser.parse (_output_parser self) c false) as [s|];
    [| by constructor].
  destruct s as [thought action action_input | observation | response]; simpl;
    [| by constructor |].
  - destruct (tools_dict_sync tools !! action) as [tool|]; [| by constructor].
    destruct (AsyncBaseTool.call tool action_input) as [exc|tool_output];
      [by constructor |].
    unfold ret; cbn beta iota. subst k.
    erewrite after_actions_result by reflexivity.
    rewrite length_app. simpl.
    case_bool_decide as Hcap.
    + by apply (step_run_action_capped lib self step uuid4 h thought action
                  action_input tool_output).
    + by apply (step_run_action lib self step uuid4 h thought action
                  action_input tool_output).
  - unfold ret; cbn beta iota. subst k.
    erewrite after_actions_result by reflexivity.
    rewrite length_app. simpl.
    case_bool_decide as Hcap.
    + by apply step_run_response_capped.
    + by apply step_run_response.
Qed.

Lemma aprocess_actions_step_run uuid4 tools output h :
  step_run lib self step uuid4 h
    (bind (_aprocess_actions self step tools output false)
          (after_actions lib self step uuid4) h).
Proof.
  remember (after_actions lib self step uuid4) as k eqn:Hk.
  unfold bind, _aprocess_actions, bind, lift, _extract_reasoning_step.
  destruct (ChatMessage.content (ChatResponse.message output)) as [c|];
    [| by constructor].
  destruct (ReActOutputParser.parse (_output_parser self) c false) as [s|];
    [| by constructor].
  destruct s as [thought action action_input | observation | response]; simpl;
    [| by constructor |].
  - destruct (tools_dict_async tools !! action) as [tool|]; [| by constructor].
    destruct (AsyncBaseTool.acall tool action_input) as [exc|tool_output];
      [by constructor |].
    unfold ret; cbn beta iota. subst k.
    erewrite after_actions_result by reflexivity.
    rewrite length_app. simpl.
    case_bool_decide as Hcap.
    + by apply (step_run_action_capped lib self step uuid4 h thought action
                  action_input tool_output).
    + by apply (step_run_action lib self step uuid4 h thought action
                  action_input tool_output).
  - unfold ret; cbn beta iota. subst k.
    erewrite after_actions_result by reflexivity.
    rewrite length_app. simpl.
    case_bool_decide as Hcap.
    + by apply step_run_response_capped.
    + by apply step_run_response.
Qed.

(** A run of a step, blocking or suspending, has one of the five results. *)
Lemma step_in_step_run form uuid4 h :
  step_run lib self step uuid4 h (step_in form lib self step task uuid4 h).
Proof.
  destruct form; simpl.
  - rewrite run_step_eq. apply process_actions_step_run.
  - rewrite arun_step_eq. apply aprocess_actions_step_run.
Qed.

End StepRuns.

(** ** Reading the heap after a write *)

Ltac heap_reads :=
  unfold exec, reasoning_at, sources_at, memory_at,
    extend_reasoning, append_source, memory_put; simpl;
  rewrite ?lookup_insert_eq; rewrite ?lookup_insert_ne by done; try done.

Lemma reasoning_at_exec_extend r steps h :
  reasoning_at (exec (extend_reasoning r steps) h) r = reasoning_at h r ++ steps.
Proof. heap_reads. Qed.

Lemma reasoning_at_exec_extend_ne r r' steps h :
  r' <> r -> reasoning_at (exec (extend_reasoning r steps) h) r' = reasoning_at h r'.
Proof. intros. heap_reads. Qed.

Lemma sources_at_exec_append r o h :
  sources_at (exec (append_source r o) h) r = sources_at h r ++ [o].
Proof. heap_reads. Qed.

Lemma sources_at_exec_append_ne r r' o h :
  r' <> r -> sources_at (exec (append_source r o) h) r' = sources_at h r'.
Proof. intros. heap_reads. Qed.

Lemma memory_at_exec_put r msg h :
  memory_at (exec (memory_put r msg) h) r = memory_at h r ++ [msg].
Proof. heap_reads. Qed.

Lemma memory_at_exec_put_ne r r' msg h :
  r' <> r -> memory_at (exec (memory_put r msg) h) r' = memory_at h r'.
Proof. intros. heap_reads. Qed.

Lemma observations_app steps steps' :
  observations (steps ++ steps') = observations steps ++ observations steps'.
Proof. apply omap_app. Qed.

(** ** Failures of a step, in either form *)

Section StepFailures.

Variable lib : Library.
Variable self : ReActAgentStepEngine.t.
Variables (step : TaskStep.t) (task : Task.t).
Variable form : Form.

(** X1.  A step that fails with anything but MaxIterationsReached leaves
    the heap as it found it. *)
Theorem failed_step_keeps_heap uuid4 h e h' :
  step_in form lib self step task uuid4 h = (inl e, h') ->
  e <> MaxIterationsReached ->
  h' = h.
Proof.
  intros Hrun Hne.
  pose proof (step_in_step_run lib self step task form uuid4 h) as Hcases.
  rewrite Hrun in Hcases. by inversion Hcases.
Qed.

(** X2.  A step that fails with MaxIterationsReached has written before
    failing: the trace is extended up to the cap, by a response, or by an
    action and the observation of a tool output that is appended to the
    sources; the memories are as they were. *)
Theorem capped_step_has_written uuid4 h h' :
  step_in form lib self step task uuid4 h = (inl MaxIterationsReached, h') ->
  Z.of_nat (length (reasoning_at h' (current_reasoning_of step)))
  = _max_iterations self /\
  memories h' = memories h /\
  ((exists response,
       reasoning_at h' (current_reasoning_of step)
       = reasoning_at h (current_reasoning_of step) ++ [ResponseReasoningStep response]
       /\ source_lists h' = source_lists h) \/
   (exists thought action action_input tool_output,
       reasoning_at h' (current_reasoning_of step)
       = reasoning_at h (current_reasoning_of step)
         ++ [ActionReasoningStep thought action action_input;
             ObservationReasoningStep (ToolOutput.str tool_output)]
       /\ sources_at h' (sources_of step)
          = sources_at h (sources_of step) ++ [tool_output])).
Proof.
  intros Hrun.
  pose proof (step_in_step_run lib self step task form uuid4 h) as Hcases.
  rewrite Hrun in Hcases.
  inversion Hcases as [e He | response Hcap | | thought action action_input
                         tool_output Hcap | ]; subst.
  - discriminate He.
  - rewrite reasoning_at_exec_extend, length_app. repeat split; [done|].
    left. by exists response.
  - rewrite reasoning_at_exec_extend, length_app. repeat split; [done|].
    right. exists thought, action, action_input, tool_output. split; [done|].
    heap_reads.
Qed.

(** X3.  A step never fails with NoReasoningSteps: the response assembly of
    a step always finds a trace that is not empty.  Nor does it fail with an
    index or attribute error, or with the exceptions of the constructor and
    of the streaming entry points. *)
Theorem step_failures uuid4 h e h' :
  step_in form lib self step task uuid4 h = (inl e, h') ->
  e <> NoReasoningSteps /\ e <> PythonRuntimeError /\
  e <> AmbiguousToolSource /\ e <> UnsupportedStreaming.
Proof.
  intros Hrun.
  pose proof (step_in_step_run lib self step task form uuid4 h) as Hcases.
  rewrite Hrun in Hcases.
  inversion Hcases as [e' He | | | | ]; subst; [| done | done].
  by destruct e.
Qed.

(** X4.  A failure of the extraction of the reasoning step (no text, a text
    that the parser rejects, a step that is neither terminal nor an action)
    is the failure of the step, and the heap is as it was. *)
Theorem extraction_failure_fails_step uuid4 h e :
  _extract_reasoning_step self (model_response form lib self step task h) false
  = inl e ->
  step_in form lib self step task uuid4 h = (inl e, h).
Proof.
  intros Hextract. destruct form; simpl in *.
  - rewrite run_step_eq. unfold bind, _process_actions, bind, lift.
    by rewrite Hextract.
  - rewrite arun_step_eq. unfold bind, _aprocess_actions, bind, lift.
    by rewrite Hextract.
Qed.

End StepFailures.

(** ** What a step writes, in either form *)

Section StepWrites.

Variable lib : Library.
Variable self : ReActAgentStepEngine.t.
Variables (step : TaskStep.t) (task : Task.t).
Variable form : Form.

(** X5.  A step that returns with is_last = true has appended to the memory
    of the step one assistant turn, whose content is the response text of
    the output; a step that returns with is_last = false has left that
    memory as it was.  No other memory is written. *)
Theorem returned_step_memory uuid4 h out h' :
  step_in form lib self step task uuid4 h = (inr out, h') ->
  memory_at h' (TaskStep.memory step)
  = (if TaskStepOutput.is_last out
     then memory_at h (TaskStep.memory step)
          ++ [{| ChatMessage.content :=
                   Some (AgentChatResponse.response (TaskStepOutput.output out));
                 ChatMessage.role := ASSISTANT |}]
     else memory_at h (TaskStep.memory step)) /\
  (forall r, r <> TaskStep.memory step -> memory_at h' r = memory_at h r).
Proof.
  intros Hrun.
  pose proof (step_in_step_run lib self step task form uuid4 h) as Hcases.
  rewrite Hrun in Hcases.
  inversion Hcases; subst; simpl; split; try done.
  - heap_reads.
  - intros r Hr. heap_reads.
Qed.

(** X6.  The output of a step that returns: it carries the step it was run
    on and the list object of the sources of that step; its response text
    is taken from the last entry of the trace as the step leaves it; it is
    the last one exactly when that entry is terminal, and it proposes one
    follow-up step, with the identifier drawn and no input, exactly when it
    is not the last. *)
Theorem returned_step_output uuid4 h out h' :
  step_in form lib self step task uuid4 h = (inr out, h') ->
  TaskStepOutput.task_step out = step /\
  AgentChatResponse.sources (TaskStepOutput.output out) = sources_of step /\
  exists last_step,
    last (reasoning_at h' (current_reasoning_of step)) = Some last_step /\
    AgentChatResponse.response (TaskStepOutput.output out)
    = match last_step with
      | ResponseReasoningStep response => response
      | _ => get_content lib last_step
      end /\
    TaskStepOutput.is_last out = is_done last_step /\
    TaskStepOutput.next_steps out
    = if is_done last_step then []
      else [TaskStep.get_next_step step uuid4 None].
Proof.
  intros Hrun.
  pose proof (step_in_step_run lib self step task form uuid4 h) as Hcases.
  rewrite Hrun in Hcases.
  inversion Hcases as [ | | response Hcap | | thought action action_input
                            tool_output Hcap]; subst; simpl;
    (split; [done|]); (split; [done|]).
  - exists (ResponseReasoningStep response). split; [|done].
    replace (reasoning_at _ _)
      with (reasoning_at h (current_reasoning_of step)
            ++ [ResponseReasoningStep response]) by heap_reads.
    by rewrite last_snoc.
  - exists (ObservationReasoningStep (ToolOutput.str tool_output)). split; [|done].
    rewrite reasoning_at_exec_extend.
    replace (reasoning_at _ _) with (reasoning_at h (current_reasoning_of step))
      by heap_reads.
    by rewrite last_app.
Qed.

(** X7.  Whether a step returns or fails, what it appends to the trace and
    to the sources goes together: when the observations of the trace were
    the renderings of the sources before the step, in order, they are so
    after it. *)
Theorem observations_follow_sources uuid4 h result h' :
  step_in form lib self step task uuid4 h = (result, h') ->
  observations (reasoning_at h (current_reasoning_of step))
  = map ToolOutput.str (sources_at h (sources_of step)) ->
  observations (reasoning_at h' (current_reasoning_of step))
  = map ToolOutput.str (sources_at h' (sources_of step)).
Proof.
  intros Hrun Hinv.
  pose proof (step_in_step_run lib self step task form uuid4 h) as Hcases.
  rewrite Hrun in Hcases.
  assert (Hresponse : forall response,
    observations (reasoning_at
      (exec (extend_reasoning (current_reasoning_of step)
               [ResponseReasoningStep response]) h) (current_reasoning_of step))
    = map ToolOutput.str (sources_at h (sources_of step))).
  { intros. rewrite reasoning_at_exec_extend, observations_app, Hinv. simpl.
    apply app_nil_r. }
  assert (Haction : forall thought action action_input tool_output,
    observations (reasoning_at
      (exec (extend_reasoning (current_reasoning_of step)
               [ActionReasoningStep thought action action_input;
                ObservationReasoningStep (ToolOutput.str tool_output)])
         (exec (append_source (sources_of step) tool_output) h))
      (current_reasoning_of step))
    = map ToolOutput.str (sources_at h (sources_of step) ++ [tool_output])).
  { intros. rewrite reasoning_at_exec_extend, observations_app, map_app.
    replace (reasoning_at _ _) with (reasoning_at h (current_reasoning_of step))
      by heap_reads.
    by rewrite Hinv. }
  inversion Hcases; subst.
  - exact Hinv.
  - rewrite Hresponse. f_equal.
  - replace (sources_at _ _) with (sources_at h (sources_of step)) by heap_reads.
    replace (reasoning_at _ _)
      with (reasoning_at
              (exec (extend_reasoning (current_reasoning_of step)
                       [ResponseReasoningStep response]) h)
              (current_reasoning_of step)) by heap_reads.
    apply Hresponse.
  - rewrite Haction. f_equal. heap_reads.
  - rewrite Haction. f_equal. heap_reads.
Qed.

Lemma step_writes_its_lists uuid4 h result h' :
  step_in form lib self step task uuid4 h = (result, h') ->
  (forall r, r <> current_reasoning_of step -> reasoning_at h' r = reasoning_at h r) /\
  (forall r, r <> sources_of step -> sources_at h' r = sources_at h r) /\
  (forall r, r <> TaskStep.memory step -> memory_at h' r = memory_at h r).
Proof.
  intros Hrun.
  pose proof (step_in_step_run lib self step task form uuid4 h) as Hcases.
  rewrite Hrun in Hcases.
  inversion Hcases; subst; repeat split; intros r Hr; heap_reads.
Qed.

(** X8.  Whether a step returns or fails, it writes to no list but the
    trace, the sources and the memory of the step. *)
Theorem step_frame uuid4 h result h' :
  step_in form lib self step task uuid4 h = (result, h') ->
  (forall r, r <> current_reasoning_of step -> reasoning_at h' r = reasoning_at h r) /\
  (forall r, r <> sources_of step -> sources_at h' r = sources_at h r) /\
  (forall r, r <> TaskStep.memory step -> memory_at h' r = memory_at h r).
Proof. apply step_writes_its_lists. Qed.

End StepWrites.

(** ** The lists of a new task *)


(** The references of a step made by initialize_step were not held by the
    heap and are held by the heap that initialize_step leaves, where the
    lists at them are empty. *)
Lemma initialize_step_allocates task uuid4 h step h0 :
  initialize_step task uuid4 h = (inr step, h0) ->
  (current_reasoning_of step ∉ dom (reasoning_lists h)) /\
  (sources_of step ∉ dom (source_lists h)) /\
  (current_reasoning_of step ∈ dom (reasoning_lists h0)) /\
  (sources_of step ∈ dom (source_lists h0)) /\
  reasoning_at h0 (current_reasoning_of step) = [] /\
  sources_at h0 (sources_of step) = [].
Proof.
  unfold initialize_step. intros [= <- <-]. simpl.
  repeat split; try apply is_fresh; try (apply elem_of_dom; heap_reads); heap_reads.
Qed.

(** X10.  Two tasks initialised one after the other have their own lists:
    a step of the first one, in either form and whether it returns or
    fails, leaves the trace and the sources of the second one empty. *)
Theorem tasks_have_their_own_lists lib self form task_a task_b uuid4_a uuid4_b uuid4
    h step_a h_a step_b h_b result h' :
  initialize_step task_a uuid4_a h = (inr step_a, h_a) ->
  initialize_step task_b uuid4_b h_a = (inr step_b, h_b) ->
  step_in form lib self step_a task_a uuid4 h_b = (result, h') ->
  current_reasoning_of step_b <> current_reasoning_of step_a /\
  sources_of step_b <> sources_of step_a /\
  reasoning_at h' (current_reasoning_of step_b) = [] /\
  sources_at h' (sources_of step_b) = [].
Proof.
  intros Ha Hb Hrun.
  destruct (initialize_step_allocates _ _ _ _ _ Ha) as (_ & _ & Hra & Hsa & _).
  destruct (initialize_step_allocates _ _ _ _ _ Hb) as (Hfr & Hfs & _ & _ & Hrb & Hsb).
  assert (Hr : current_reasoning_of step_b <> current_reasoning_of step_a)
    by (intros Heq; by rewrite Heq in Hfr).
  assert (Hs : sources_of step_b <> sources_of step_a)
    by (intros Heq; by rewrite Heq in Hfs).
  destruct (step_writes_its_lists lib self step_a task_a form uuid4 h_b result h' Hrun)
    as (Hframe_r & Hframe_s & _).
  repeat split; try done.
  - by rewrite Hframe_r.
  - by rewrite Hframe_s.
Qed.

(** ** The tool source *)

(** X11.  The construction fails in one case only, a tool list that is not
    empty together with a retriever, and then with AmbiguousToolSource. *)
Theorem init_fails_iff lib tools llm max_iterations react_chat_formatter
    output_parser verbose tool_retriever e :
  __init__ lib tools llm max_iterations react_chat_formatter output_parser
           verbose tool_retriever = inl e
  <-> tools <> [] /\ tool_retriever <> None /\ e = AmbiguousToolSource.
Proof.
  destruct tools as [|tool tools], tool_retriever as [retriever|]; simpl; split;
    try discriminate; try (by intros (? & ? & ?)).
  - by intros [= <-].
  - by intros (_ & _ & ->).
Qed.

(** X12.  An engine built by from_tools resolves, for every input, the
    fixed tools when the tool list was given and not empty, and otherwise
    what the retriever returns for the input, or nothing without a
    retriever; a missing tool list and an empty one are the same.  The cap
    and the model are the ones given, and the formatter and the parser are
    the ones given or the defaults. *)
Theorem from_tools_engine lib tools tool_retriever llm max_iterations
    react_chat_formatter output_parser verbose self :
  from_tools lib tools tool_retriever llm max_iterations react_chat_formatter
             output_parser verbose = inr self ->
  (forall input,
      get_tools lib self input
      = map (adapt_to_async_tool lib)
          match tools with
          | Some (tool :: fixed) => tool :: fixed
          | _ => match tool_retriever with
                 | Some retriever => ObjectRetriever.retrieve retriever input
                 | None => []
                 end
          end) /\
  _llm self = llm /\
  _max_iterations self = max_iterations /\
  _react_chat_formatter self = default (default_formatter lib) react_chat_formatter /\
  _output_parser self = default (default_parser lib) output_parser.
Proof.
  unfold from_tools.
  destruct tools as [[|tool fixed]|], tool_retriever as [retriever|]; simpl;
    try discriminate; by intros [= <-].
Qed.

(** X13.  In the table of tools of either form a name stands for the last
    tool of the list that has it. *)
Theorem tools_dict_last_wins tools action :
  tools_dict_sync tools !! action
  = last (filter (fun tool => ToolMetadata.name (AsyncBaseTool.metadata tool) = action)
                 tools) /\
  tools_dict_async tools !! action
  = last (filter (fun tool => ToolMetadata.name (AsyncBaseTool.metadata tool) = action)
                 tools).
Proof.
  assert (Hgen : forall d : gmap string AsyncBaseTool.t,
    foldl (fun d tool => <[ToolMetadata.name (AsyncBaseTool.metadata tool) := tool]> d)
          d tools !! action
    = match last (filter (fun tool =>
                            ToolMetadata.name (AsyncBaseTool.metadata tool) = action)
                         tools) with
      | Some tool => Some tool
      | None => d !! action
      end).
  { induction tools as [|tool tools IH]; intros d; simpl; [done|].
    rewrite IH, filter_cons. case_decide as Hname.
    - rewrite last_cons.
      destruct (last (filter _ tools)); [done|].
      by rewrite Hname, lookup_insert_eq.
    - destruct (last (filter _ tools)); [done|].
      by rewrite lookup_insert_ne.
  }
  unfold tools_dict_sync, tools_dict_async, ToolMetadata.get_name.
  rewrite !Hgen, lookup_empty.
  by destruct (last _).
Qed.

(** ** The response assembly, all cases *)

(** X14.  Over an empty trace the response assembly fails with
    NoReasoningSteps, also when the cap is 0; it returns a response exactly
    when the trace is not empty and its length is not the cap. *)
Theorem response_assembly_cases lib self current_reasoning sources h :
  (reasoning_at h current_reasoning = [] ->
   _get_response lib self current_reasoning sources h = (inl NoReasoningSteps, h)) /\
  ((exists agent_response,
       fst (_get_response lib self current_reasoning sources h) = inr agent_response)
   <-> reasoning_at h current_reasoning <> [] /\
       Z.of_nat (length (reasoning_at h current_reasoning)) <> _max_iterations self).
Proof.
  split.
  - intros Hnil. unfold _get_response, bind, read_reasoning, raise.
    by rewrite Hnil.
  - split.
    + intros [agent_response Hresp].
      unfold _get_response, bind, read_reasoning, raise in Hresp.
      case_bool_decide as Hlen; [done|].
      case_bool_decide as Hcap; [done|].
      split; [|done]. intros Hnil. by rewrite Hnil in Hlen.
    + intros [Hne Hcap].
      destruct (get_response_assembled lib self current_reasoning sources h Hne Hcap)
        as (last_step & _ & ->).
      by eexists.
Qed.

(** ** The extraction of the reasoning step *)

(** X15.  The extraction fails in three cases only: the response has no
    text (EmptyModelOutput); the parser rejects the text
    (ReasoningParseError, with the text); the parser returns a step that is
    neither terminal nor an action (UnexpectedStepType, with the step). *)
Theorem extraction_fails_iff self output is_streaming e :
  _extract_reasoning_step self output is_streaming = inl e
  <-> (ChatMessage.content (ChatResponse.message output) = None /\
       e = EmptyModelOutput) \/
      (exists message_content,
          ChatMessage.content (ChatResponse.message output) = Some message_content /\
          ReActOutputParser.parse (_output_parser self) message_content is_streaming
          = None /\
          e = ReasoningParseError message_content) \/
      (exists message_content observation,
          ChatMessage.content (ChatResponse.message output) = Some message_content /\
          ReActOutputParser.parse (_output_parser self) message_content is_streaming
          = Some (ObservationReasoningStep observation) /\
          e = UnexpectedStepType (ObservationReasoningStep observation)).
Proof.
  unfold _extract_reasoning_step.
  destruct (ChatMessage.content (ChatResponse.message output)) as [c|].
  - destruct (ReActOutputParser.parse (_output_parser self) c is_streaming)
      as [[thought action action_input | observation | response]|] eqn:Hparse; simpl.
    + split; [done|].
      intros [[? _] | [(c' & [= <-] & Hp & _) | (c' & o & [= <-] & Hp & _)]];
        congruence.
    + split.
      * intros [= <-]. right. right. by exists c, observation.
      * intros [[? _] | [(c' & [= <-] & Hp & _) | (c' & o & [= <-] & Hp & ->)]];
          congruence.
    + split; [done|].
      intros [[? _] | [(c' & [= <-] & Hp & _) | (c' & o & [= <-] & Hp & _)]];
        congruence.
    + split.
      * intros [= <-]. right. left. by exists c.
      * intros [[? _] | [(c' & [= <-] & Hp & ->) | (c' & o & [= <-] & Hp & _)]];
          congruence.
  - split.
    + intros [= <-]. by left.
    + intros [[_ ->] | [(c' & ? & _) | (c' & o & ? & _)]]; congruence.
Qed.

(** X16.  When the extraction returns, it returns the text of the response,
    a list of exactly one step, the step that the parser made of the text,
    and the terminal flag of that step; when the flag is false the step is
    an action. *)
Theorem extraction_returns self output is_streaming message_content
    current_reasoning is_done' :
  _extract_reasoning_step self output is_streaming
  = inr (message_content, current_reasoning, is_done') ->
  ChatMessage.content (ChatResponse.message output) = Some message_content /\
  exists reasoning_step,
    ReActOutputParser.parse (_output_parser self) message_content is_streaming
    = Some reasoning_step /\
    current_reasoning = [reasoning_step] /\
    is_done' = is_done reasoning_step /\
    (is_done' = false ->
     exists thought action action_input,
       reasoning_step = ActionReasoningStep thought action action_input).
Proof.
  unfold _extract_reasoning_step.
  destruct (ChatMessage.content (ChatResponse.message output)) as [c|]; [|done].
  destruct (ReActOutputParser.parse (_output_parser self) c is_streaming)
    as [[thought action action_input | observation | response]|] eqn:Hparse;
    simpl; try done; intros [= <- <- <-]; (split; [done|]); eexists;
    (split; [exact Hparse|]); repeat split; try done.
  intros _. by exists thought, action, action_input.
Qed.

(** ** The cap and the parity of the trace *)

(** X17.  With a cap that is odd and a trace of even length, a step whose
    model output is an action that can be carried out is not stopped by the
    cap: it returns, it is not the last, and the trace it leaves has an even
    length again. *)
Theorem odd_cap_lets_actions_through lib self step task uuid4 h
    thought action action_input :
  Z.odd (_max_iterations self) = true ->
  Nat.even (length (reasoning_at h (current_reasoning_of step))) = true ->
  parses_to self (LLM.chat (_llm self) (input_chat_of lib self step task h))
            (ActionReasoningStep thought action action_input) ->
  can_complete (get_tools lib self (Task.input task))
               (ActionReasoningStep thought action action_input) ->
  exists out h',
    run_step lib self step task uuid4 h = (inr out, h') /\
    TaskStepOutput.is_last out = false /\
    Nat.even (length (reasoning_at h' (current_reasoning_of step))) = true.
Proof.
  intros Hodd Heven Hparse Hcan.
  destruct (run_step_below_cap lib self step task uuid4 h
              (ActionReasoningStep thought action action_input) Hparse Hcan)
    as (out & h' & Hrun & _ & Hlast & _).
  - unfold entries_added. simpl. intros Hcap.
    apply Z.odd_spec in Hodd as [m Hm].
    apply Nat.even_spec in Heven as [k Hk]. lia.
  - exists out, h'. split; [done|]. split; [done|].
    destruct Hcan as (tool & tool_output & Hlookup & Hcall).
    destruct (run_step_action_state lib self step task uuid4 h thought action
                action_input tool tool_output Hparse Hlookup Hcall) as (Hr & _).
    rewrite Hrun in Hr. simpl in Hr. rewrite Hr, length_app. simpl.
    by rewrite Nat.add_comm.
Qed.

(** ** The inference of the final chunk *)

Lemma prefix_length (p s : string) :
  String.prefix p s = true -> (String.length p <= String.length s)%nat.
Proof.
  revert s. induction p as [|a p IH]; intros s; simpl; [lia|].
  destruct s as [|b s]; simpl; [done|].
  destruct (Ascii.ascii_dec a b); [|done].
  intros Hp. apply IH in Hp. lia.
Qed.

Lemma prefix_empty (s : string) : String.prefix "" s = true.
Proof. by destruct s. Qed.

Lemma prefix_app (p s rest : string) :
  String.prefix p s = true -> String.prefix p (s +:+ rest) = true.
Proof.
  revert s. induction p as [|a p IH]; intros s; [intros _; apply prefix_empty|].
  destruct s as [|b s]; simpl; [done|].
  destruct (Ascii.ascii_dec a b); [apply IH | done].
Qed.

Lemma python_in_app (a : Ascii.ascii) (sub s rest : string) :
  python_in (String a sub) s = true ->
  python_in (String a sub) (s +:+ rest) = true.
Proof.
  unfold python_in. induction s as [|b s IH]; [done|].
  change (String b s +:+ rest) with (String b (s +:+ rest)).
  cbn [String.index].
  destruct (String.prefix (String a sub) (String b s)) eqn:Hp.
  - intros _. pose proof (prefix_app _ (String b s) rest Hp) as Hp'.
    change (String b s +:+ rest) with (String b (s +:+ rest)) in Hp'.
    by rewrite Hp'.
  - destruct (String.prefix (String a sub) (String b (s +:+ rest))); [done|].
    destruct (String.index 0 (String a sub) s); [|done].
    intros _. specialize (IH eq_refl).
    by destruct (String.index 0 (String a sub) (s +:+ rest)).
Qed.

Lemma python_in_nonempty (a : Ascii.ascii) (sub s : string) :
  python_in (String a sub) s = true -> s <> "".
Proof. by intros Hin ->. Qed.

(** X18.  A chunk whose content is not empty and has fewer than the seven
    characters of "Thought" is inferred to be the start of the final
    response, whatever it is, a beginning of "Thought" included. *)
Theorem short_chunk_is_final self chunk latest_content :
  ChatMessage.content (ChatResponse.message chunk) = Some latest_content ->
  latest_content <> "" ->
  (String.length latest_content < 7)%nat ->
  _infer_stream_chunk_is_final self chunk = true.
Proof.
  intros Hcontent Hne Hshort. unfold _infer_stream_chunk_is_final.
  rewrite Hcontent.
  destruct (String.eqb_spec latest_content "") as [|_]; [done|]. simpl negb.
  destruct (String.prefix "Thought" latest_content) eqn:Hp; [|done].
  apply prefix_length in Hp. simpl in Hp. lia.
Qed.

(** X19.  Once the content has "Answer: " in it, the chunk is inferred
    final, and so is every chunk whose content continues it. *)
Theorem answer_marker_stays_final self chunk latest_content rest :
  ChatMessage.content (ChatResponse.message chunk) = Some (latest_content +:+ rest) ->
  python_in "Answer: " latest_content = true ->
  _infer_stream_chunk_is_final self chunk = true.
Proof.
  intros Hcontent Hin. unfold _infer_stream_chunk_is_final. rewrite Hcontent.
  apply (python_in_app _ _ _ rest) in Hin.
  pose proof (python_in_nonempty _ _ _ Hin) as Hne.
  destruct (String.eqb_spec (latest_content +:+ rest) "") as [|_]; [done|].
  simpl negb. rewrite Hin. by destruct (negb _).
Qed.

(** A chunk without content, or with the empty content, is not final; nor
    is one whose content starts with "Thought" and has no "Answer: " in
    it. *)
Lemma thought_without_answer_is_not_final self chunk :
  match ChatMessage.content (ChatResponse.message chunk) with
  | None => True
  | Some latest_content =>
      latest_content = "" \/
      (String.prefix "Thought" latest_content = true /\
       python_in "Answer: " latest_content = false)
  end ->
  _infer_stream_chunk_is_final self chunk = false.
Proof.
  unfold _infer_stream_chunk_is_final.
  destruct (ChatMessage.content (ChatResponse.message chunk)) as [c|]; [|done].
  intros [-> | [Hp Hin]]; [done|].
  rewrite Hp, Hin. by destruct (negb _).
Qed.

(** ** The properties above on the concrete engine *)

Lemma failed_step_keeps_heap_witness :
  snd (step_in suspending demo_lib lost_engine demo_step demo_task "step-1" empty_heap)
  = empty_heap.
Proof.
  apply (failed_step_keeps_heap demo_lib lost_engine demo_step demo_task suspending
           "step-1" empty_heap (UnknownTool "nonexistent")).
  - apply injective_projections; [vm_compute; reflexivity | reflexivity].
  - discriminate.
Defined.

Lemma capped_step_has_written_witness :
  exists h',
    step_in blocking demo_lib searching_engine_cap_2 demo_step demo_task "step-1"
      empty_heap = (inl MaxIterationsReached, h') /\
    Z.of_nat (length (reasoning_at h' (current_reasoning_of demo_step)))
    = _max_iterations searching_engine_cap_2.
Proof.
  exists (snd (step_in blocking demo_lib searching_engine_cap_2 demo_step demo_task
                 "step-1" empty_heap)).
  assert (Hrun : step_in blocking demo_lib searching_engine_cap_2 demo_step demo_task
                   "step-1" empty_heap
                 = (inl MaxIterationsReached,
                    snd (step_in blocking demo_lib searching_engine_cap_2 demo_step
                           demo_task "step-1" empty_heap)))
    by (apply injective_projections; [vm_compute; reflexivity | reflexivity]).
  split; [exact Hrun |].
  exact (proj1 (capped_step_has_written demo_lib searching_engine_cap_2 demo_step
                  demo_task blocking "step-1" empty_heap _ Hrun)).
Defined.

Lemma step_failures_witness :
  ToolExecutionError "missing argument q" <> NoReasoningSteps /\
  ToolExecutionError "missing argument q" <> PythonRuntimeError /\
  ToolExecutionError "missing argument q" <> AmbiguousToolSource /\
  ToolExecutionError "missing argument q" <> UnsupportedStreaming.
Proof.
  apply (step_failures demo_lib careless_engine demo_step demo_task suspending
           "step-1" empty_heap (ToolExecutionError "missing argument q") empty_heap).
  vm_compute. reflexivity.
Defined.

Lemma extraction_failure_fails_step_witness :
  step_in suspending demo_lib (demo_engine (fixed_llm "") 10) demo_step demo_task
    "step-1" empty_heap
  = (inl (ReasoningParseError ""), empty_heap).
Proof.
  apply (extraction_failure_fails_step demo_lib (demo_engine (fixed_llm "") 10)
           demo_step demo_task suspending "step-1" empty_heap).
  reflexivity.
Defined.

Lemma returned_step_memory_witness :
  exists out h',
    step_in blocking demo_lib answering_engine demo_step demo_task "step-1" empty_heap
    = (inr out, h') /\
    memory_at h' (TaskStep.memory demo_step)
    = (if TaskStepOutput.is_last out
       then memory_at empty_heap (TaskStep.memory demo_step)
            ++ [{| ChatMessage.content :=
                     Some (AgentChatResponse.response (TaskStepOutput.output out));
                   ChatMessage.role := ASSISTANT |}]
       else memory_at empty_heap (TaskStep.memory demo_step)).
Proof.
  destruct (step_in blocking demo_lib answering_engine demo_step demo_task "step-1"
              empty_heap) as [[e|out] h'] eqn:Hrun.
  - apply (f_equal fst) in Hrun. vm_compute in Hrun. discriminate Hrun.
  - exists out, h'. split; [reflexivity |].
    exact (proj1 (returned_step_memory demo_lib answering_engine demo_step demo_task
                    blocking "step-1" empty_heap out h' Hrun)).
Defined.

Example answer_goes_to_memory :
  memory_at
    (snd (step_in blocking demo_lib answering_engine demo_step demo_task "step-1"
            empty_heap))
    (TaskStep.memory demo_step)
  = [assistant_turn "42"].
Proof. vm_compute. reflexivity. Qed.

Lemma returned_step_output_witness :
  exists out h',
    step_in suspending demo_lib two_phase_engine demo_step demo_task "step-1" empty_heap
    = (inr out, h') /\
    TaskStepOutput.task_step out = demo_step /\
    AgentChatResponse.sources (TaskStepOutput.output out) = sources_of demo_step.
Proof.
  destruct (step_in suspending demo_lib two_phase_engine demo_step demo_task "step-1"
              empty_heap) as [[e|out] h'] eqn:Hrun.
  - apply (f_equal fst) in Hrun. vm_compute in Hrun. discriminate Hrun.
  - exists out, h'. split; [reflexivity |].
    destruct (returned_step_output demo_lib two_phase_engine demo_step demo_task
                suspending "step-1" empty_heap out h' Hrun) as (Hstep & Hsources & _).
    exact (conj Hstep Hsources).
Defined.

Lemma observations_follow_sources_witness :
  observations
    (reasoning_at
       (snd (step_in blocking demo_lib searching_engine_cap_2 demo_step demo_task
               "step-1" empty_heap))
       (current_reasoning_of demo_step))
  = map ToolOutput.str
      (sources_at
         (snd (step_in blocking demo_lib searching_engine_cap_2 demo_step demo_task
                 "step-1" empty_heap))
         (sources_of demo_step)).
Proof.
  apply (observations_follow_sources demo_lib searching_engine_cap_2 demo_step
           demo_task blocking "step-1" empty_heap
           (fst (step_in blocking demo_lib searching_engine_cap_2 demo_step demo_task
                   "step-1" empty_heap))).
  - apply surjective_pairing.
  - reflexivity.
Defined.

Lemma step_frame_witness :
  (forall r,
      r <> current_reasoning_of demo_step ->
      reasoning_at
        (snd (step_in blocking demo_lib two_phase_engine demo_step demo_task "step-1"
                empty_heap)) r
      = reasoning_at empty_heap r) /\
  (forall r,
      r <> sources_of demo_step ->
      sources_at
        (snd (step_in blocking demo_lib two_phase_engine demo_step demo_task "step-1"
                empty_heap)) r
      = sources_at empty_heap r) /\
  (forall r,
      r <> TaskStep.memory demo_step ->
      memory_at
        (snd (step_in blocking demo_lib two_phase_engine demo_step demo_task "step-1"
                empty_heap)) r
      = memory_at empty_heap r).
Proof.
  apply (step_frame demo_lib two_phase_engine demo_step demo_task blocking "step-1"
           empty_heap
           (fst (step_in blocking demo_lib two_phase_engine demo_step demo_task
                   "step-1" empty_heap))).
  apply surjective_pairing.
Defined.

Lemma tasks_have_their_own_lists_witness :
  exists step_a h_a step_b h_b,
    initialize_step demo_task "step-a" empty_heap = (inr step_a, h_a) /\
    initialize_step
      {| Task.task_id := "other"; Task.input := "other question";
         Task.memory := 2%positive |} "step-b" h_a
    = (inr step_b, h_b) /\
    current_reasoning_of step_b <> current_reasoning_of step_a /\
    reasoning_at
      (snd (step_in blocking demo_lib two_phase_engine step_a demo_task "step-1" h_b))
      (current_reasoning_of step_b)
    = [].
Proof.
  destruct (initialize_step demo_task "step-a" empty_heap) as [[e|step_a] h_a] eqn:Ha;
    [discriminate Ha |].
  destruct (initialize_step
              {| Task.task_id := "other"; Task.input := "other question";
                 Task.memory := 2%positive |} "step-b" h_a)
    as [[e|step_b] h_b] eqn:Hb; [discriminate Hb |].
  exists step_a, h_a, step_b, h_b.
  split; [first [reflexivity | exact Ha] |].
  split; [first [reflexivity | exact Hb] |].
  destruct (tasks_have_their_own_lists demo_lib two_phase_engine blocking demo_task
              {| Task.task_id := "other"; Task.input := "other question";
                 Task.memory := 2%positive |}
              "step-a" "step-b" "step-1" empty_heap step_a h_a step_b h_b
              (fst (step_in blocking demo_lib two_phase_engine step_a demo_task
                      "step-1" h_b))
              (snd (step_in blocking demo_lib two_phase_engine step_a demo_task
                      "step-1" h_b))
              Ha Hb (surjective_pairing _))
    as (Hr & _ & Htrace & _).
  exact (conj Hr Htrace).
Defined.

Lemma from_tools_engine_witness :
  exists self,
    from_tools demo_lib (Some [])
      (Some {| ObjectRetriever.retrieve input :=
                 if String.eqb input "question" then [search_tool] else [] |})
      (fixed_llm "42") 10 None None false
    = inr self /\
    get_tools demo_lib self "question" = [adapt_to_async_tool demo_lib search_tool] /\
    get_tools demo_lib self "another question" = [].
Proof.
  destruct (from_tools demo_lib (Some [])
      (Some {| ObjectRetriever.retrieve input :=
                 if String.eqb input "question" then [search_tool] else [] |})
      (fixed_llm "42") 10 None None false) as [e|self] eqn:Hself;
    [discriminate Hself |].
  exists self. split; [reflexivity |].
  destruct (from_tools_engine demo_lib _ _ _ _ _ _ _ self Hself) as (Htools & _).
  split; apply Htools.
Defined.

Lemma extraction_returns_witness :
  ChatMessage.content (ChatResponse.message (says "search x")) = Some "search x" /\
  exists reasoning_step,
    ReActOutputParser.parse (_output_parser two_phase_engine) "search x" false
    = Some reasoning_step /\
    [ActionReasoningStep "look it up" "search" {[ "q" := "x" ]}] = [reasoning_step] /\
    false = is_done reasoning_step /\
    (false = false ->
     exists thought action action_input,
       reasoning_step = ActionReasoningStep thought action action_input).
Proof.
  apply (extraction_returns two_phase_engine (says "search x") false "search x"
           [ActionReasoningStep "look it up" "search" {[ "q" := "x" ]}] false).
  reflexivity.
Defined.

Lemma odd_cap_lets_actions_through_witness :
  exists out h',
    run_step demo_lib (demo_engine (fixed_llm "search x") 3) demo_step demo_task
      "step-1" empty_heap = (inr out, h') /\
    TaskStepOutput.is_last out = false /\
    Nat.even (length (reasoning_at h' (current_reasoning_of demo_step))) = true.
Proof.
  apply (odd_cap_lets_actions_through demo_lib (demo_engine (fixed_llm "search x") 3)
           demo_step demo_task "step-1" empty_heap "look it up" "search"
           {[ "q" := "x" ]}).
  - reflexivity.
  - reflexivity.
  - exists "search x". split; reflexivity.
  - exists (adapt_to_async_tool demo_lib search_tool), result_y.
    split; vm_compute; reflexivity.
Defined.

Lemma short_chunk_is_final_witness :
  _infer_stream_chunk_is_final answering_engine (says "Th") = true.
Proof.
  apply (short_chunk_is_final answering_engine (says "Th") "Th").
  - reflexivity.
  - discriminate.
  - simpl. lia.
Defined.

Lemma answer_marker_stays_final_witness :
  _infer_stream_chunk_is_final answering_engine
    (says ("Thought: I can answer. Answer: 4" +:+ "2"))
  = true.
Proof.
  apply (answer_marker_stays_final answering_engine
           (says ("Thought: I can answer. Answer: 4" +:+ "2"))
           "Thought: I can answer. Answer: 4" "2").
  - reflexivity.
  - reflexivity.
Defined.

(** The table of two tools of one name holds the second. *)
Example second_tool_of_a_name_is_called :
  (fun tool => AsyncBaseTool.call tool {[ "q" := "x" ]}) <$>
    (tools_dict_sync
       [adapt_to_async_tool demo_lib search_tool;
        {| AsyncBaseTool.metadata :=
             {| ToolMetadata.name := "search"; ToolMetadata.description := "newer" |};
           AsyncBaseTool.call _ := inl "offline";
           AsyncBaseTool.acall _ := inl "offline" |}]
     !! "search")
  = Some (inl "offline").
Proof. vm_compute. reflexivity. Qed.

(** A chunk that begins "Thought" is final while it is short and is not
    final any more once it has grown, before the answer comes. *)
Example final_inference_is_not_monotone :
  _infer_stream_chunk_is_final answering_engine (says "Though") = true /\
  _infer_stream_chunk_is_final answering_engine (says "Thought: I need") = false.
Proof. split; reflexivity. Qed.

(** ** A step, path by path, in either form *)

Section StepPaths.

Variable lib : Library.
Variable self : ReActAgentStepEngine.t.
Variables (step : TaskStep.t) (task : Task.t).
Variable form : Form.

Lemma step_in_eq uuid4 h :
  step_in form lib self step task uuid4 h
  = bind (match form with
          | blocking => _process_actions
          | suspending => _aprocess_actions
          end self step (get_tools lib self (Task.input task))
            (model_response form lib self step task h) false)
         (after_actions lib self step uuid4) h.
Proof. by destruct form. Qed.

(** X20.  A step whose model output is a response: at the cap it fails with
    MaxIterationsReached after it has appended the response to the trace;
    otherwise it returns the response as the text of the last output, after
    it has appended the response to the trace and one assistant turn with
    that text to the memory. *)
Theorem step_of_response uuid4 h response :
  parses_to self (model_response form lib self step task h)
            (ResponseReasoningStep response) ->
  step_in form lib self step task uuid4 h
  = if bool_decide
         (Z.of_nat (length (reasoning_at h (current_reasoning_of step)) + 1)
          = _max_iterations self)
    then (inl MaxIterationsReached,
          exec (extend_reasoning (current_reasoning_of step)
                  [ResponseReasoningStep response]) h)
    else (inr {| TaskStepOutput.output :=
                   {| AgentChatResponse.response := response;
                      AgentChatResponse.sources := sources_of step |};
                 TaskStepOutput.task_step := step;
                 TaskStepOutput.is_last := true;
                 TaskStepOutput.next_steps := [] |},
          exec (memory_put (TaskStep.memory step)
                  {| ChatMessage.content := Some response;
                     ChatMessage.role := ASSISTANT |})
            (exec (extend_reasoning (current_reasoning_of step)
                     [ResponseReasoningStep response]) h)).
Proof.
  intros (c & Hcontent & Hparse). rewrite step_in_eq.
  remember (after_actions lib self step uuid4) as k eqn:Hk.
  assert (Hextract :
    _extract_reasoning_step self (model_response form lib self step task h) false
    = inr (c, [ResponseReasoningStep response], true)).
  { unfold _extract_reasoning_step. by rewrite Hcontent, Hparse. }
  destruct form;
    unfold bind, _process_actions, _aprocess_actions, bind, lift;
    rewrite Hextract; simpl; unfold ret; cbn beta iota; subst k;
    (erewrite after_actions_result by reflexivity);
  by rewrite length_app.
Qed.

(** X21.  A step whose model output is an action.  When no resolved tool
    has the name, it fails with UnknownTool; when the tool raises, it fails
    with the exception of the tool; in both cases the heap is as it was.
    When the tool returns, the step appends the tool output to the sources
    and the action and the observation of the output to the trace; then, at
    the cap, it fails with MaxIterationsReached, and otherwise it returns
    the rendering of the observation and one follow-up step. *)
Theorem step_of_action uuid4 h thought action action_input :
  parses_to self (model_response form lib self step task h)
            (ActionReasoningStep thought action action_input) ->
  step_in form lib self step task uuid4 h
  = match tools_dict_in form (get_tools lib self (Task.input task)) !! action with
    | None => (inl (UnknownTool action), h)
    | Some tool =>
        match call_in form tool action_input with
        | inl exc => (inl (ToolExecutionError exc), h)
        | inr tool_output =>
            if bool_decide
                 (Z.of_nat (length (reasoning_at h (current_reasoning_of step)) + 2)
                  = _max_iterations self)
            then (inl MaxIterationsReached,
                  exec (extend_reasoning (current_reasoning_of step)
                          [ActionReasoningStep thought action action_input;
                           ObservationReasoningStep (ToolOutput.str tool_output)])
                    (exec (append_source (sources_of step) tool_output) h))
            else (inr {| TaskStepOutput.output :=
                           {| AgentChatResponse.response :=
                                get_content lib
                                  (ObservationReasoningStep
                                     (ToolOutput.str tool_output));
                              AgentChatResponse.sources := sources_of step |};
                         TaskStepOutput.task_step := step;
                         TaskStepOutput.is_last := false;
                         TaskStepOutput.next_steps :=
                           [TaskStep.get_next_step step uuid4 None] |},
                  exec (extend_reasoning (current_reasoning_of step)
                          [ActionReasoningStep thought action action_input;
                           ObservationReasoningStep (ToolOutput.str tool_output)])
                    (exec (append_source (sources_of step) tool_output) h))
        end
    end.
Proof.
  intros (c & Hcontent & Hparse). rewrite step_in_eq.
  remember (after_actions lib self step uuid4) as k eqn:Hk.
  assert (Hextract :
    _extract_reasoning_step self (model_response form lib self step task h) false
    = inr (c, [ActionReasoningStep thought action action_input], false)).
  { unfold _extract_reasoning_step. by rewrite Hcontent, Hparse. }
  destruct form; simpl tools_dict_in; simpl call_in;
    unfold bind, _process_actions, _aprocess_actions, bind, lift;
    rewrite Hextract; simpl.
  - destruct (tools_dict_sync _ !! action) as [tool|]; [|done].
    destruct (AsyncBaseTool.call tool action_input) as [exc|tool_output]; [done|].
    unfold ret; cbn beta iota. subst k.
    erewrite after_actions_result by reflexivity.
    by rewrite length_app.
  - destruct (tools_dict_async _ !! action) as [tool|]; [|done].
    destruct (AsyncBaseTool.acall tool action_input) as [exc|tool_output]; [done|].
    unfold ret; cbn beta iota. subst k.
    erewrite after_actions_result by reflexivity.
    by rewrite length_app.
Qed.

End StepPaths.

(** ** The lists are logs *)

Section Logs.

Variable lib : Library.
Variable self : ReActAgentStepEngine.t.

Lemma step_appends form step task uuid4 h r :
  let h' := snd (step_in form lib self step task uuid4 h) in
  reasoning_at h r `prefix_of` reasoning_at h' r /\
  sources_at h r `prefix_of` sources_at h' r /\
  memory_at h r `prefix_of` memory_at h' r.
Proof.
  simpl.
  pose proof (step_in_step_run lib self step task form uuid4 h) as Hcases.
  destruct (step_in form lib self step task uuid4 h) as [result h'].
  set (le := fun h1 h2 : Heap =>
    reasoning_at h1 r `prefix_of` reasoning_at h2 r /\
    sources_at h1 r `prefix_of` sources_at h2 r /\
    memory_at h1 r `prefix_of` memory_at h2 r).
  assert (Hrefl : forall h0, le h0 h0) by (by intros h0; repeat split).
  assert (Htrans : forall h1 h2 h3, le h1 h2 -> le h2 h3 -> le h1 h3).
  { intros h1 h2 h3 (? & ? & ?) (? & ? & ?). repeat split; by etrans. }
  assert (Hextend : forall steps h0,
    le h0 (exec (extend_reasoning (current_reasoning_of step) steps) h0)).
  { intros steps h0. repeat split; [| heap_reads | heap_reads].
    destruct (decide (r = current_reasoning_of step)) as [->|Hne].
    - rewrite reasoning_at_exec_extend. by apply prefix_app_r.
    - by rewrite reasoning_at_exec_extend_ne. }
  assert (Happend : forall o h0,
    le h0 (exec (append_source (sources_of step) o) h0)).
  { intros o h0. repeat split; [heap_reads | | heap_reads].
    destruct (decide (r = sources_of step)) as [->|Hne].
    - rewrite sources_at_exec_append. by apply prefix_app_r.
    - by rewrite sources_at_exec_append_ne. }
  assert (Hput : forall msg h0,
    le h0 (exec (memory_put (TaskStep.memory step) msg) h0)).
  { intros msg h0. repeat split; [heap_reads | heap_reads |].
    destruct (decide (r = TaskStep.memory step)) as [->|Hne].
    - rewrite memory_at_exec_put. by apply prefix_app_r.
    - by rewrite memory_at_exec_put_ne. }
  change (le h (result, h').2). simpl.
  inversion Hcases; subst.
  - apply Hrefl.
  - apply Hextend.
  - eapply Htrans; [apply Hextend | apply Hput].
  - eapply Htrans; [apply Happend | apply Hextend].
  - eapply Htrans; [apply Happend | apply Hextend].
Qed.

(** X22.  After any sequence of runs of steps, in either form, of whatever
    tasks, returning or failing, every trace, every list of sources and
    every memory of the heap of before is still there, entry by entry, at
    the beginning of the list of after: nothing is removed or rewritten. *)
Theorem lists_are_append_only runs h r :
  reasoning_at h r `prefix_of` reasoning_at (heap_after_runs lib self runs h) r /\
  sources_at h r `prefix_of` sources_at (heap_after_runs lib self runs h) r /\
  memory_at h r `prefix_of` memory_at (heap_after_runs lib self runs h) r.
Proof.
  revert h. induction runs as [|[[[form step] task] uuid4] runs IH]; intros h; simpl.
  - done.
  - destruct (step_appends form step task uuid4 h r) as (Hr & Hs & Hm).
    destruct (IH (snd (step_in form lib self step task uuid4 h))) as (Hr' & Hs' & Hm').
    repeat split; by etrans.
Qed.

Lemma step_keeps_task_lists form step task uuid4 h :
  task_lists (reasoning_at h (current_reasoning_of step))
             (sources_at h (sources_of step)) ->
  task_lists
    (reasoning_at (snd (step_in form lib self step task uuid4 h))
       (current_reasoning_of step))
    (sources_at (snd (step_in form lib self step task uuid4 h)) (sources_of step)).
Proof.
  intros Hlists.
  pose proof (step_in_step_run lib self step task form uuid4 h) as Hcases.
  destruct (step_in form lib self step task uuid4 h) as [result h'].
  simpl. inversion Hcases; subst.
  - done.
  - rewrite reasoning_at_exec_extend.
    replace (sources_at _ _) with (sources_at h (sources_of step)) by heap_reads.
    by constructor.
  - replace (reasoning_at _ _)
      with (reasoning_at h (current_reasoning_of step)
            ++ [ResponseReasoningStep response]) by heap_reads.
    replace (sources_at _ _) with (sources_at h (sources_of step)) by heap_reads.
    by constructor.
  - replace (reasoning_at _ _)
      with (reasoning_at h (current_reasoning_of step)
            ++ [ActionReasoningStep thought action action_input;
                ObservationReasoningStep (ToolOutput.str tool_output)])
      by heap_reads.
    replace (sources_at _ _) with (sources_at h (sources_of step) ++ [tool_output])
      by heap_reads.
    by constructor.
  - replace (reasoning_at _ _)
      with (reasoning_at h (current_reasoning_of step)
            ++ [ActionReasoningStep thought action action_input;
                ObservationReasoningStep (ToolOutput.str tool_output)])
      by heap_reads.
    replace (sources_at _ _) with (sources_at h (sources_of step) ++ [tool_output])
      by heap_reads.
    by constructor.
Qed.

(** X23.  From a step made by initialize_step, after any sequence of runs
    of steps that share its step state (the step itself and the follow-up
    steps), in either form, returning or failing, the trace and the sources
    go together: the trace is made of responses and of actions each followed
    by its observation, and the observations are, in order, the renderings
    of the sources. *)
Theorem task_lists_go_together task uuid4_0 h step0 h0 runs :
  initialize_step task uuid4_0 h = (inr step0, h0) ->
  Forall (fun run => TaskStep.step_state run.1.1.2 = TaskStep.step_state step0) runs ->
  task_lists
    (reasoning_at (heap_after_runs lib self runs h0) (current_reasoning_of step0))
    (sources_at (heap_after_runs lib self runs h0) (sources_of step0)) /\
  observations
    (reasoning_at (heap_after_runs lib self runs h0) (current_reasoning_of step0))
  = map ToolOutput.str
      (sources_at (heap_after_runs lib self runs h0) (sources_of step0)).
Proof.
  intros Hinit Hruns.
  assert (Hobs : forall trace sources,
    task_lists trace sources -> observations trace = map ToolOutput.str sources).
  { induction 1 as [| trace sources ? ? ? ? _ IH | trace sources ? _ IH].
    - done.
    - by rewrite observations_app, map_app, IH.
    - rewrite observations_app, IH. apply app_nil_r. }
  assert (Hlists : task_lists
    (reasoning_at (heap_after_runs lib self runs h0) (current_reasoning_of step0))
    (sources_at (heap_after_runs lib self runs h0) (sources_of step0))).
  { destruct (initialize_step_allocates _ _ _ _ _ Hinit) as (_ & _ & _ & _ & Hr & Hs).
    assert (Hstart : task_lists (reasoning_at h0 (current_reasoning_of step0))
                                (sources_at h0 (sources_of step0)))
      by (rewrite Hr, Hs; constructor).
    clear Hinit Hr Hs. revert h0 Hstart.
    induction Hruns as [|[[[form step] task'] uuid4] runs Hstate _ IH];
      intros h0 Hstart; simpl; [done|].
    apply IH. simpl in Hstate.
    unfold current_reasoning_of, sources_of in *. rewrite <- Hstate in *.
    by apply step_keeps_task_lists. }
  split; [done | by apply Hobs].
Qed.

End Logs.

Lemma step_of_response_witness :
  step_in suspending demo_lib answering_engine demo_step demo_task "step-1" empty_heap
  = (inr {| TaskStepOutput.output :=
              {| AgentChatResponse.response := "42";
                 AgentChatResponse.sources := sources_of demo_step |};
            TaskStepOutput.task_step := demo_step;
            TaskStepOutput.is_last := true;
            TaskStepOutput.next_steps := [] |},
     exec (memory_put (TaskStep.memory demo_step) (assistant_turn "42"))
       (exec (extend_reasoning (current_reasoning_of demo_step)
                [ResponseReasoningStep "42"]) empty_heap)).
Proof.
  rewrite (step_of_response demo_lib answering_engine demo_step demo_task suspending
             "step-1" empty_heap "42").
  - reflexivity.
  - exists "42". split; reflexivity.
Defined.

Lemma step_of_action_witness :
  step_in suspending demo_lib lost_engine demo_step demo_task "step-1" empty_heap
  = (inl (UnknownTool "nonexistent"), empty_heap).
Proof.
  rewrite (step_of_action demo_lib lost_engine demo_step demo_task suspending
             "step-1" empty_heap "try" "nonexistent" ∅).
  - vm_compute. reflexivity.
  - exists "nonexistent". split; reflexivity.
Defined.

Example suspending_action_at_cap :
  step_in suspending demo_lib searching_engine_cap_2 demo_step demo_task "step-1"
    empty_heap
  = (inl MaxIterationsReached,
     exec (extend_reasoning (current_reasoning_of demo_step)
             [ActionReasoningStep "look it up" "search" {[ "q" := "x" ]};
              ObservationReasoningStep "result-y"])
       (exec (append_source (sources_of demo_step) result_y) empty_heap)).
Proof. vm_compute. reflexivity. Qed.

Lemma task_lists_go_together_witness :
  exists step0 h0,
    initialize_step demo_task "step-0" empty_heap = (inr step0, h0) /\
    observations
      (reasoning_at
         (heap_after_runs demo_lib two_phase_engine
            [(blocking, step0, demo_task, "step-1");
             (suspending, TaskStep.get_next_step step0 "step-1" None, demo_task,
              "step-2")] h0)
         (current_reasoning_of step0))
    = map ToolOutput.str
        (sources_at
           (heap_after_runs demo_lib two_phase_engine
              [(blocking, step0, demo_task, "step-1");
               (suspending, TaskStep.get_next_step step0 "step-1" None, demo_task,
                "step-2")] h0)
           (sources_of step0)).
Proof.
  destruct (initialize_step demo_task "step-0" empty_heap) as [[e|step0] h0] eqn:Hinit;
    [discriminate Hinit |].
  exists step0, h0. split; [reflexivity |].
  refine (proj2 (task_lists_go_together demo_lib two_phase_engine demo_task "step-0"
                   empty_heap step0 h0 _ Hinit _)).
  repeat constructor.
Defined.

Example two_runs_of_a_task :
  observations
    (reasoning_at
       (heap_after_runs demo_lib two_phase_engine
          [(blocking, demo_step, demo_task, "step-1");
           (suspending, TaskStep.get_next_step demo_step "step-1" None, demo_task,
            "step-2")] empty_heap)
       (current_reasoning_of demo_step))
  = ["result-y"].
Proof. vm_compute. reflexivity. Qed.
